(** * The Coder agent of devika: parsing, persistence, state emission, retry

    A shallow embedding of [src/agents/coder/coder.py].

    Python text ([str]) is a sequence of Unicode code points; it is modelled
    as a list of code points ([N]).  The string builtins used by the agent
    ([strip], [split], [rfind], [startswith], [join], [replace], [lower],
    slicing) are written out with the semantics CPython gives them,
    including the two places where they fail or wrap around: indexing past
    the end of a list raises [IndexError], and a negative slice bound counts
    from the end. *)

From Stdlib Require Import NArith ZArith Ascii String Lia.
From stdpp Require Import gmap list.

Local Open Scope N_scope.
Local Open Scope nat_scope.

(** ** Text *)

Abbreviation char := N (only parsing).
Abbreviation str := (list N) (only parsing).
Abbreviation length := Datatypes.length (only parsing).

(** An ASCII literal as a [str]. *)
Fixpoint lit (s : string) : str :=
  match s with
  | EmptyString => []
  | String c s' => N_of_ascii c :: lit s'
  end.
Arguments lit s%_string_scope : simpl never.

(** The line feed, written [\n] in the source. *)
Definition NL : str := [10%N].

(** ** Exceptions and results *)

Inductive exn : Set :=
  | IndexError       (* a list index out of range *)
  | TypeError        (* a call that misses a positional argument, a subscript of None *)
  | RecursionError.  (* the interpreter's bound on the depth of calls *)

Inductive res (A : Type) : Type :=
  | Ok (a : A)
  | Raise (e : exn).
Arguments Ok {A} a.
Arguments Raise {A} e.

#[global] Instance res_ret : MRet res := fun _ a => Ok a.
#[global] Instance res_bind : MBind res := fun _ _ f m =>
  match m with
  | Ok a => f a
  | Raise e => Raise e
  end.

(** [l[i]] on a Python list. *)
Definition item {A} (l : list A) (i : nat) : res A :=
  match l !! i with
  | Some x => Ok x
  | None => Raise IndexError
  end.

(** A [for] loop whose body may raise. *)
Fixpoint foldM {A B} (f : A -> B -> res A) (a : A) (l : list B) : res A :=
  match l with
  | [] => Ok a
  | b :: l' => a' ← f a b; foldM f a' l'
  end.

(** ** String builtins *)

Module PyStr.

(** [s.startswith(p)] *)
Fixpoint startswith (s p : str) : bool :=
  match p, s with
  | [], _ => true
  | _ :: _, [] => false
  | d :: p', c :: s' => (c =? d)%N && startswith s' p'
  end.

(** [s.find(sep)]: the lowest index at which [sep] occurs, [None] for -1. *)
Fixpoint find (s sep : str) : option nat :=
  if startswith s sep then Some 0
  else match s with
       | [] => None
       | _ :: s' => S <$> find s' sep
       end.

(** The highest index at which [sep] occurs. *)
Fixpoint rfind_nat (s sep : str) : option nat :=
  match s with
  | [] => if startswith [] sep then Some 0 else None
  | _ :: s' =>
      match rfind_nat s' sep with
      | Some i => Some (S i)
      | None => if startswith s sep then Some 0 else None
      end
  end.

(** [s.rfind(sep)]: that index, or -1. *)
Definition rfind (s sep : str) : Z :=
  match rfind_nat s sep with
  | Some i => Z.of_nat i
  | None => (-1)%Z
  end.

(** [s[:k]]: a negative bound counts from the end, and bounds are clipped. *)
Definition slice_to (s : str) (k : Z) : str :=
  if (k <? 0)%Z then take (Z.to_nat (Z.of_nat (length s) + k)) s
  else take (Z.to_nat k) s.

(** [c.isspace()]: the code points Unicode classifies as white space. *)
Definition isspace (c : char) : bool :=
  ((9 <=? c) && (c <=? 13) || (28 <=? c) && (c <=? 32)
   || (c =? 133) || (c =? 160) || (c =? 5760)
   || (8192 <=? c) && (c <=? 8202)
   || (c =? 8232) || (c =? 8233) || (c =? 8239) || (c =? 8287)
   || (c =? 12288))%N.

Fixpoint lstrip (s : str) : str :=
  match s with
  | [] => []
  | c :: s' => if isspace c then lstrip s' else s
  end.

Definition rstrip (s : str) : str := rev (lstrip (rev s)).

(** [s.strip()] *)
Definition strip (s : str) : str := rstrip (lstrip s).

(** [s.split(sep, n)]: at most [n] splits, left to right. *)
Fixpoint split_n (n : nat) (s sep : str) : list str :=
  match n with
  | O => [s]
  | S n' =>
      match find s sep with
      | None => [s]
      | Some i => take i s :: split_n n' (drop (i + length sep) s) sep
      end
  end.

(** [s.split(sep)] for a non-empty [sep]: every split consumes at least one
    code point, so [length s] splits are as good as no bound. *)
Definition split (s sep : str) : list str := split_n (length s) s sep.

(** [sep.join(l)] *)
Fixpoint join (sep : str) (l : list str) : str :=
  match l with
  | [] => []
  | [x] => x
  | x :: l' => x ++ sep ++ join sep l'
  end.

(** *** [s.lower()]

    The case mapping of CPython 3.11 (Unicode 14.0.0).  A code point goes to
    its lower-case form; U+0130 goes to two code points; and the capital
    sigma U+03A3 goes to the final sigma U+03C2 or to the small sigma U+03C3
    according to what stands around it. *)

(** The code points with a lower-case form of one code point, as runs:
    [(first, last, step, target)] sends [first + k * step], up to [last],
    to [target + k * step]. *)
Definition lower_table : list (N * N * N * N) :=
  [
    (65, 90, 1, 97); (192, 214, 1, 224); (216, 222, 1, 248);
    (256, 302, 2, 257); (306, 310, 2, 307); (313, 327, 2, 314);
    (330, 374, 2, 331); (376, 376, 1, 255); (377, 381, 2, 378);
    (385, 385, 1, 595); (386, 388, 2, 387); (390, 390, 1, 596);
    (391, 391, 1, 392); (393, 394, 1, 598); (395, 395, 1, 396);
    (398, 398, 1, 477); (399, 399, 1, 601); (400, 400, 1, 603);
    (401, 401, 1, 402); (403, 403, 1, 608); (404, 404, 1, 611);
    (406, 406, 1, 617); (407, 407, 1, 616); (408, 408, 1, 409);
    (412, 412, 1, 623); (413, 413, 1, 626); (415, 415, 1, 629);
    (416, 420, 2, 417); (422, 422, 1, 640); (423, 423, 1, 424);
    (425, 425, 1, 643); (428, 428, 1, 429); (430, 430, 1, 648);
    (431, 431, 1, 432); (433, 434, 1, 650); (435, 437, 2, 436);
    (439, 439, 1, 658); (440, 440, 1, 441); (444, 444, 1, 445);
    (452, 452, 1, 454); (453, 453, 1, 454); (455, 455, 1, 457);
    (456, 456, 1, 457); (458, 458, 1, 460); (459, 475, 2, 460);
    (478, 494, 2, 479); (497, 497, 1, 499); (498, 500, 2, 499);
    (502, 502, 1, 405); (503, 503, 1, 447); (504, 542, 2, 505);
    (544, 544, 1, 414); (546, 562, 2, 547); (570, 570, 1, 11365);
    (571, 571, 1, 572); (573, 573, 1, 410); (574, 574, 1, 11366);
    (577, 577, 1, 578); (579, 579, 1, 384); (580, 580, 1, 649);
    (581, 581, 1, 652); (582, 590, 2, 583); (880, 882, 2, 881);
    (886, 886, 1, 887); (895, 895, 1, 1011); (902, 902, 1, 940);
    (904, 906, 1, 941); (908, 908, 1, 972); (910, 911, 1, 973);
    (913, 929, 1, 945); (931, 939, 1, 963); (975, 975, 1, 983);
    (984, 1006, 2, 985); (1012, 1012, 1, 952); (1015, 1015, 1, 1016);
    (1017, 1017, 1, 1010); (1018, 1018, 1, 1019); (1021, 1023, 1, 891);
    (1024, 1039, 1, 1104); (1040, 1071, 1, 1072); (1120, 1152, 2, 1121);
    (1162, 1214, 2, 1163); (1216, 1216, 1, 1231); (1217, 1229, 2, 1218);
    (1232, 1326, 2, 1233); (1329, 1366, 1, 1377); (4256, 4293, 1, 11520);
    (4295, 4295, 1, 11559); (4301, 4301, 1, 11565); (5024, 5103, 1, 43888);
    (5104, 5109, 1, 5112); (7312, 7354, 1, 4304); (7357, 7359, 1, 4349);
    (7680, 7828, 2, 7681); (7838, 7838, 1, 223); (7840, 7934, 2, 7841);
    (7944, 7951, 1, 7936); (7960, 7965, 1, 7952); (7976, 7983, 1, 7968);
    (7992, 7999, 1, 7984); (8008, 8013, 1, 8000); (8025, 8031, 2, 8017);
    (8040, 8047, 1, 8032); (8072, 8079, 1, 8064); (8088, 8095, 1, 8080);
    (8104, 8111, 1, 8096); (8120, 8121, 1, 8112); (8122, 8123, 1, 8048);
    (8124, 8124, 1, 8115); (8136, 8139, 1, 8050); (8140, 8140, 1, 8131);
    (8152, 8153, 1, 8144); (8154, 8155, 1, 8054); (8168, 8169, 1, 8160);
    (8170, 8171, 1, 8058); (8172, 8172, 1, 8165); (8184, 8185, 1, 8056);
    (8186, 8187, 1, 8060); (8188, 8188, 1, 8179); (8486, 8486, 1, 969);
    (8490, 8490, 1, 107); (8491, 8491, 1, 229); (8498, 8498, 1, 8526);
    (8544, 8559, 1, 8560); (8579, 8579, 1, 8580); (9398, 9423, 1, 9424);
    (11264, 11311, 1, 11312); (11360, 11360, 1, 11361); (11362, 11362, 1, 619);
    (11363, 11363, 1, 7549); (11364, 11364, 1, 637); (11367, 11371, 2, 11368);
    (11373, 11373, 1, 593); (11374, 11374, 1, 625); (11375, 11375, 1, 592);
    (11376, 11376, 1, 594); (11378, 11378, 1, 11379); (11381, 11381, 1, 11382);
    (11390, 11391, 1, 575); (11392, 11490, 2, 11393); (11499, 11501, 2, 11500);
    (11506, 11506, 1, 11507); (42560, 42604, 2, 42561); (42624, 42650, 2, 42625);
    (42786, 42798, 2, 42787); (42802, 42862, 2, 42803); (42873, 42875, 2, 42874);
    (42877, 42877, 1, 7545); (42878, 42886, 2, 42879); (42891, 42891, 1, 42892);
    (42893, 42893, 1, 613); (42896, 42898, 2, 42897); (42902, 42920, 2, 42903);
    (42922, 42922, 1, 614); (42923, 42923, 1, 604); (42924, 42924, 1, 609);
    (42925, 42925, 1, 620); (42926, 42926, 1, 618); (42928, 42928, 1, 670);
    (42929, 42929, 1, 647); (42930, 42930, 1, 669); (42931, 42931, 1, 43859);
    (42932, 42946, 2, 42933); (42948, 42948, 1, 42900); (42949, 42949, 1, 642);
    (42950, 42950, 1, 7566); (42951, 42953, 2, 42952); (42960, 42960, 1, 42961);
    (42966, 42968, 2, 42967); (42997, 42997, 1, 42998); (65313, 65338, 1, 65345);
    (66560, 66599, 1, 66600); (66736, 66771, 1, 66776); (66928, 66938, 1, 66967);
    (66940, 66954, 1, 66979); (66956, 66962, 1, 66995); (66964, 66965, 1, 67003);
    (68736, 68786, 1, 68800); (71840, 71871, 1, 71872); (93760, 93791, 1, 93792);
    (125184, 125217, 1, 125218)
  ]%N.

(** The code points with the property Cased, as intervals. *)
Definition cased_table : list (N * N) :=
  [
    (65, 90); (97, 122); (170, 170); (181, 181); (186, 186);
    (192, 214); (216, 246); (248, 442); (444, 447); (452, 659);
    (661, 696); (704, 705); (736, 740); (837, 837); (880, 883);
    (886, 887); (890, 893); (895, 895); (902, 902); (904, 906);
    (908, 908); (910, 929); (931, 1013); (1015, 1153); (1162, 1327);
    (1329, 1366); (1376, 1416); (4256, 4293); (4295, 4295); (4301, 4301);
    (4304, 4346); (4349, 4351); (5024, 5109); (5112, 5117); (7296, 7304);
    (7312, 7354); (7357, 7359); (7424, 7615); (7680, 7957); (7960, 7965);
    (7968, 8005); (8008, 8013); (8016, 8023); (8025, 8025); (8027, 8027);
    (8029, 8029); (8031, 8061); (8064, 8116); (8118, 8124); (8126, 8126);
    (8130, 8132); (8134, 8140); (8144, 8147); (8150, 8155); (8160, 8172);
    (8178, 8180); (8182, 8188); (8305, 8305); (8319, 8319); (8336, 8348);
    (8450, 8450); (8455, 8455); (8458, 8467); (8469, 8469); (8473, 8477);
    (8484, 8484); (8486, 8486); (8488, 8488); (8490, 8493); (8495, 8500);
    (8505, 8505); (8508, 8511); (8517, 8521); (8526, 8526); (8544, 8575);
    (8579, 8580); (9398, 9449); (11264, 11492); (11499, 11502); (11506, 11507);
    (11520, 11557); (11559, 11559); (11565, 11565); (42560, 42605); (42624, 42653);
    (42786, 42887); (42891, 42894); (42896, 42954); (42960, 42961); (42963, 42963);
    (42965, 42969); (42997, 42998); (43000, 43002); (43824, 43866); (43868, 43880);
    (43888, 43967); (64256, 64262); (64275, 64279); (65313, 65338); (65345, 65370);
    (66560, 66639); (66736, 66771); (66776, 66811); (66928, 66938); (66940, 66954);
    (66956, 66962); (66964, 66965); (66967, 66977); (66979, 66993); (66995, 67001);
    (67003, 67004); (67456, 67456); (67459, 67461); (67463, 67504); (67506, 67514);
    (68736, 68786); (68800, 68850); (71840, 71903); (93760, 93823); (119808, 119892);
    (119894, 119964); (119966, 119967); (119970, 119970); (119973, 119974); (119977, 119980);
    (119982, 119993); (119995, 119995); (119997, 120003); (120005, 120069); (120071, 120074);
    (120077, 120084); (120086, 120092); (120094, 120121); (120123, 120126); (120128, 120132);
    (120134, 120134); (120138, 120144); (120146, 120485); (120488, 120512); (120514, 120538);
    (120540, 120570); (120572, 120596); (120598, 120628); (120630, 120654); (120656, 120686);
    (120688, 120712); (120714, 120744); (120746, 120770); (120772, 120779); (122624, 122633);
    (122635, 122654); (125184, 125251); (127280, 127305); (127312, 127337); (127344, 127369)
  ]%N.

(** The code points with the property Case_Ignorable, as intervals. *)
Definition case_ignorable_table : list (N * N) :=
  [
    (39, 39); (46, 46); (58, 58); (94, 94); (96, 96);
    (168, 168); (173, 173); (175, 175); (180, 180); (183, 184);
    (688, 879); (884, 885); (890, 890); (900, 901); (903, 903);
    (1155, 1161); (1369, 1369); (1375, 1375); (1425, 1469); (1471, 1471);
    (1473, 1474); (1476, 1477); (1479, 1479); (1524, 1524); (1536, 1541);
    (1552, 1562); (1564, 1564); (1600, 1600); (1611, 1631); (1648, 1648);
    (1750, 1757); (1759, 1768); (1770, 1773); (1807, 1807); (1809, 1809);
    (1840, 1866); (1958, 1968); (2027, 2037); (2042, 2042); (2045, 2045);
    (2070, 2093); (2137, 2139); (2184, 2184); (2192, 2193); (2200, 2207);
    (2249, 2306); (2362, 2362); (2364, 2364); (2369, 2376); (2381, 2381);
    (2385, 2391); (2402, 2403); (2417, 2417); (2433, 2433); (2492, 2492);
    (2497, 2500); (2509, 2509); (2530, 2531); (2558, 2558); (2561, 2562);
    (2620, 2620); (2625, 2626); (2631, 2632); (2635, 2637); (2641, 2641);
    (2672, 2673); (2677, 2677); (2689, 2690); (2748, 2748); (2753, 2757);
    (2759, 2760); (2765, 2765); (2786, 2787); (2810, 2815); (2817, 2817);
    (2876, 2876); (2879, 2879); (2881, 2884); (2893, 2893); (2901, 2902);
    (2914, 2915); (2946, 2946); (3008, 3008); (3021, 3021); (3072, 3072);
    (3076, 3076); (3132, 3132); (3134, 3136); (3142, 3144); (3146, 3149);
    (3157, 3158); (3170, 3171); (3201, 3201); (3260, 3260); (3263, 3263);
    (3270, 3270); (3276, 3277); (3298, 3299); (3328, 3329); (3387, 3388);
    (3393, 3396); (3405, 3405); (3426, 3427); (3457, 3457); (3530, 3530);
    (3538, 3540); (3542, 3542); (3633, 3633); (3636, 3642); (3654, 3662);
    (3761, 3761); (3764, 3772); (3782, 3782); (3784, 3789); (3864, 3865);
    (3893, 3893); (3895, 3895); (3897, 3897); (3953, 3966); (3968, 3972);
    (3974, 3975); (3981, 3991); (3993, 4028); (4038, 4038); (4141, 4144);
    (4146, 4151); (4153, 4154); (4157, 4158); (4184, 4185); (4190, 4192);
    (4209, 4212); (4226, 4226); (4229, 4230); (4237, 4237); (4253, 4253);
    (4348, 4348); (4957, 4959); (5906, 5908); (5938, 5939); (5970, 5971);
    (6002, 6003); (6068, 6069); (6071, 6077); (6086, 6086); (6089, 6099);
    (6103, 6103); (6109, 6109); (6155, 6159); (6211, 6211); (6277, 6278);
    (6313, 6313); (6432, 6434); (6439, 6440); (6450, 6450); (6457, 6459);
    (6679, 6680); (6683, 6683); (6742, 6742); (6744, 6750); (6752, 6752);
    (6754, 6754); (6757, 6764); (6771, 6780); (6783, 6783); (6823, 6823);
    (6832, 6862); (6912, 6915); (6964, 6964); (6966, 6970); (6972, 6972);
    (6978, 6978); (7019, 7027); (7040, 7041); (7074, 7077); (7080, 7081);
    (7083, 7085); (7142, 7142); (7144, 7145); (7149, 7149); (7151, 7153);
    (7212, 7219); (7222, 7223); (7288, 7293); (7376, 7378); (7380, 7392);
    (7394, 7400); (7405, 7405); (7412, 7412); (7416, 7417); (7468, 7530);
    (7544, 7544); (7579, 7679); (8125, 8125); (8127, 8129); (8141, 8143);
    (8157, 8159); (8173, 8175); (8189, 8190); (8203, 8207); (8216, 8217);
    (8228, 8228); (8231, 8231); (8234, 8238); (8288, 8292); (8294, 8303);
    (8305, 8305); (8319, 8319); (8336, 8348); (8400, 8432); (11388, 11389);
    (11503, 11505); (11631, 11631); (11647, 11647); (11744, 11775); (11823, 11823);
    (12293, 12293); (12330, 12333); (12337, 12341); (12347, 12347); (12441, 12446);
    (12540, 12542); (40981, 40981); (42232, 42237); (42508, 42508); (42607, 42610);
    (42612, 42621); (42623, 42623); (42652, 42655); (42736, 42737); (42752, 42785);
    (42864, 42864); (42888, 42890); (42994, 42996); (43000, 43001); (43010, 43010);
    (43014, 43014); (43019, 43019); (43045, 43046); (43052, 43052); (43204, 43205);
    (43232, 43249); (43263, 43263); (43302, 43309); (43335, 43345); (43392, 43394);
    (43443, 43443); (43446, 43449); (43452, 43453); (43471, 43471); (43493, 43494);
    (43561, 43566); (43569, 43570); (43573, 43574); (43587, 43587); (43596, 43596);
    (43632, 43632); (43644, 43644); (43696, 43696); (43698, 43700); (43703, 43704);
    (43710, 43711); (43713, 43713); (43741, 43741); (43756, 43757); (43763, 43764);
    (43766, 43766); (43867, 43871); (43881, 43883); (44005, 44005); (44008, 44008);
    (44013, 44013); (64286, 64286); (64434, 64450); (65024, 65039); (65043, 65043);
    (65056, 65071); (65106, 65106); (65109, 65109); (65279, 65279); (65287, 65287);
    (65294, 65294); (65306, 65306); (65342, 65342); (65344, 65344); (65392, 65392);
    (65438, 65439); (65507, 65507); (65529, 65531); (66045, 66045); (66272, 66272);
    (66422, 66426); (67456, 67461); (67463, 67504); (67506, 67514); (68097, 68099);
    (68101, 68102); (68108, 68111); (68152, 68154); (68159, 68159); (68325, 68326);
    (68900, 68903); (69291, 69292); (69446, 69456); (69506, 69509); (69633, 69633);
    (69688, 69702); (69744, 69744); (69747, 69748); (69759, 69761); (69811, 69814);
    (69817, 69818); (69821, 69821); (69826, 69826); (69837, 69837); (69888, 69890);
    (69927, 69931); (69933, 69940); (70003, 70003); (70016, 70017); (70070, 70078);
    (70089, 70092); (70095, 70095); (70191, 70193); (70196, 70196); (70198, 70199);
    (70206, 70206); (70367, 70367); (70371, 70378); (70400, 70401); (70459, 70460);
    (70464, 70464); (70502, 70508); (70512, 70516); (70712, 70719); (70722, 70724);
    (70726, 70726); (70750, 70750); (70835, 70840); (70842, 70842); (70847, 70848);
    (70850, 70851); (71090, 71093); (71100, 71101); (71103, 71104); (71132, 71133);
    (71219, 71226); (71229, 71229); (71231, 71232); (71339, 71339); (71341, 71341);
    (71344, 71349); (71351, 71351); (71453, 71455); (71458, 71461); (71463, 71467);
    (71727, 71735); (71737, 71738); (71995, 71996); (71998, 71998); (72003, 72003);
    (72148, 72151); (72154, 72155); (72160, 72160); (72193, 72202); (72243, 72248);
    (72251, 72254); (72263, 72263); (72273, 72278); (72281, 72283); (72330, 72342);
    (72344, 72345); (72752, 72758); (72760, 72765); (72767, 72767); (72850, 72871);
    (72874, 72880); (72882, 72883); (72885, 72886); (73009, 73014); (73018, 73018);
    (73020, 73021); (73023, 73029); (73031, 73031); (73104, 73105); (73109, 73109);
    (73111, 73111); (73459, 73460); (78896, 78904); (92912, 92916); (92976, 92982);
    (92992, 92995); (94031, 94031); (94095, 94111); (94176, 94177); (94179, 94180);
    (110576, 110579); (110581, 110587); (110589, 110590); (113821, 113822); (113824, 113827);
    (118528, 118573); (118576, 118598); (119143, 119145); (119155, 119170); (119173, 119179);
    (119210, 119213); (119362, 119364); (121344, 121398); (121403, 121452); (121461, 121461);
    (121476, 121476); (121499, 121503); (121505, 121519); (122880, 122886); (122888, 122904);
    (122907, 122913); (122915, 122916); (122918, 122922); (123184, 123197); (123566, 123566);
    (123628, 123631); (125136, 125142); (125252, 125259); (127995, 127999); (917505, 917505);
    (917536, 917631); (917760, 917999)
  ]%N.

Fixpoint lower_in (table : list (N * N * N * N)) (c : char) : char :=
  match table with
  | [] => c
  | (first, last, step, target) :: table' =>
      if ((first <=? c) && (c <=? last) && ((c - first) mod step =? 0))%N
      then (target + (c - first))%N
      else lower_in table' c
  end.

Definition in_intervals (table : list (N * N)) (c : char) : bool :=
  existsb (fun '(first, last) => (first <=? c) && (c <=? last))%N table.

Definition cased (c : char) : bool := in_intervals cased_table c.

Definition case_ignorable (c : char) : bool := in_intervals case_ignorable_table c.

(** The lower-case form of one code point other than the capital sigma. *)
Definition to_lower_full (c : char) : str :=
  if (c =? 304)%N then [105; 775]%N else [lower_in lower_table c].

(** The first code point of [s] that is not case-ignorable. *)
Fixpoint first_regarded (s : str) : option char :=
  match s with
  | [] => None
  | c :: s' => if case_ignorable c then first_regarded s' else Some c
  end.

(** Whether a capital sigma is final: a cased code point stands before it
    and none after it, case-ignorable code points apart.  [before] is the
    text before the sigma, nearest code point first. *)
Definition final_sigma (before after : str) : bool :=
  match first_regarded before with
  | Some c =>
      cased c && match first_regarded after with
                 | Some c' => negb (cased c')
                 | None => true
                 end
  | None => false
  end.

Fixpoint lower_from (before s : str) : str :=
  match s with
  | [] => []
  | c :: s' =>
      (if (c =? 931)%N then [if final_sigma before s' then 962%N else 963%N]
       else to_lower_full c)
        ++ lower_from (c :: before) s'
  end.

(** [s.lower()] *)
Definition lower (s : str) : str := lower_from [] s.

(** [s.replace(old, new)] for a non-empty [old]: occurrences are replaced
    left to right and do not overlap; [skip] counts the code points of an
    occurrence that are still to be passed over. *)
Fixpoint replace_from (skip : nat) (s old new : str) : str :=
  match s with
  | [] => []
  | c :: s' =>
      match skip with
      | S k => replace_from k s' old new
      | O =>
          if startswith s old then new ++ replace_from (length old - 1) s' old new
          else c :: replace_from 0 s' old new
      end
  end.

Definition replace (s old new : str) : str := replace_from 0 s old new.

End PyStr.
Import PyStr.

(** ** The parser: [Coder.validate_response] *)

(** One entry of the parsed answer, the dict [{"file": ..., "code": ...}]. *)
Record CodeFile : Type := { file : str; code : str }.

(** What [validate_response] is annotated to return:
    [Union[List[Dict[str, str]], bool]]. *)
Inductive value : Type :=
  | VList (l : list CodeFile)
  | VBool (b : bool).

(** Python truthiness, as [not valid_response] tests it. *)
Definition truthy (v : value) : bool :=
  match v with
  | VList [] => false
  | VList (_ :: _) => true
  | VBool b => b
  end.

(** The local variables of the scanning loop. *)
Record scan : Type := {
  result : list CodeFile;
  current_file : option str;   (* None until the first File: line *)
  current_code : list str;
  code_block : bool
}.

Definition scan0 : scan :=
  {| result := []; current_file := None; current_code := []; code_block := false |}.

(** [if current_file and current_code: result.append(...)]: the name must be
    a non-empty string and the buffer a non-empty list. *)
Definition flush (st : scan) : list CodeFile :=
  match current_file st, current_code st with
  | Some (c :: n), _ :: _ =>
      result st ++ [{| file := c :: n; code := join NL (current_code st) |}]
  | _, _ => result st
  end.

(** [line.split("`")[1].strip()] *)
Definition file_name (line : str) : res str :=
  name ← item (split line (lit "`")) 1; Ok (strip name).

(** The body of the [for line in ...] loop. *)
Definition scan_line (st : scan) (line : str) : res scan :=
  if startswith line (lit "File: ") then
    let result' := flush st in
    name ← file_name line;
    Ok {| result := result'; current_file := Some name;
          current_code := []; code_block := false |}
  else if startswith line (lit "```") then
    Ok {| result := result st; current_file := current_file st;
          current_code := current_code st; code_block := negb (code_block st) |}
  else
    Ok {| result := result st; current_file := current_file st;
          current_code := current_code st ++ [line]; code_block := code_block st |}.

(** Lines 56 to 60: the text between the first and the last fence, trimmed. *)
Definition fenced (response : str) : res str :=
  let response := strip response in
  response ← item (split_n 1 response (lit "~~~")) 1;
  let response := slice_to response (rfind response (lit "~~~")) in
  Ok (strip response).

(** Lines 62 to 82: the scan of the lines and the final flush. *)
Definition scan_lines (body : str) : res (list CodeFile) :=
  st ← foldM scan_line scan0 (split body NL); Ok (flush st).

Definition validate_response (response : str) : res value :=
  body ← fenced response;
  files ← scan_lines body;
  Ok (VList files).

(** ** [Coder.response_to_markdown_prompt] *)

Definition entry (f : CodeFile) : str :=
  lit "File: `" ++ file f ++ lit "`:" ++ NL ++ lit "```" ++ NL
    ++ code f ++ NL ++ lit "```".

Definition response_to_markdown_prompt (response : list CodeFile) : str :=
  let response := join NL (entry <$> response) in
  lit "~~~" ++ NL ++ response ++ NL ++ lit "~~~".


(** ** Project paths and persistence *)

(** [Coder.get_project_path]; [project_dir] is [self.project_dir], the
    projects directory of the configuration. *)
Definition get_project_path (project_dir project_name : str) : str :=
  let project_name := replace (lower project_name) (lit " ") (lit "-") in
  project_dir ++ lit "/" ++ project_name.

(** The file system as the agent sees it: the directories that exist and
    the content of every file, each under the text of its path.  The model
    covers the runs in which the operating system carries out every call:
    a call it refuses ends [save_code_to_project] with its exception, and
    two texts that it resolves to one file are two keys here. *)
Record filesystem : Type := {
  dirs : gset str;
  contents : gmap str str
}.

(** The directories on the way to [before ++ after]: every prefix that ends
    just before a [/], and the path itself. *)
Fixpoint parents (before after : str) : list str :=
  match after with
  | [] => [before]
  | c :: after' =>
      (if (c =? 47)%N && negb (bool_decide (before = [])) then [before] else [])
        ++ parents (before ++ [c]) after'
  end.

(** [os.makedirs(path, exist_ok=True)] *)
Definition makedirs (path : str) (fs : filesystem) : filesystem :=
  {| dirs := dirs fs ∪ list_to_set (parents [] path); contents := contents fs |}.

(** [with open(path, "w") as f: f.write(text)] *)
Definition write_file (path text : str) (fs : filesystem) : filesystem :=
  {| dirs := dirs fs; contents := <[path := text]> (contents fs) |}.

(** [Coder.save_code_to_project].  The result is [None] when [response] is
    empty, as [file_path_dir] then keeps its initial value. *)
Definition save_code_to_project (project_dir : str) (response : list CodeFile)
    (project_name : str) (fs : filesystem) : option str * filesystem :=
  let project_name := replace (lower project_name) (lit " ") (lit "-") in
  foldl (fun '(_, fs) file_ =>
           let file_path := project_dir ++ lit "/" ++ project_name ++ lit "/" ++ file file_ in
           let file_path_dir := slice_to file_path (rfind file_path (lit "/")) in
           let fs := makedirs file_path_dir fs in
           let fs := write_file file_path (code file_) fs in
           (Some file_path_dir, fs))
        (None, fs) response.

(** ** The collaborators: prompt template, model client, agent-state store *)

Record TerminalSession : Type := {
  title : str;
  command : str;
  output : str
}.

Record StateSnapshot (B : Type) : Type := {
  browser_session : B;
  internal_monologue : str;
  terminal_session : TerminalSession
}.
Arguments browser_session {B} _.
Arguments internal_monologue {B} _.
Arguments terminal_session {B} _.

(** What the agent is given from outside [coder.py]: the prompt template,
    the model client ([src/llm]) and the agent-state store ([src/state]).
    They are parameters of the model. *)
Class Collaborators : Type := {
  (** the browser sub-state of a snapshot, opaque to the agent *)
  BrowserSession : Type;
  (** the search results handed to the template, opaque to the agent *)
  SearchResults : Type;
  (** the content of the agent-state store *)
  Store : Type;
  (** the template [prompt.jinja2] applied to its three variables *)
  template : str -> str -> SearchResults -> str;
  (** [LLM.inference]: the answer of the client to its [n]-th call *)
  inference : nat -> str -> str;
  (** [AgentState.new_state]: the default snapshot *)
  new_state : StateSnapshot BrowserSession;
  (** [AgentState.get_latest_state], [None] when it has no snapshot to give *)
  get_latest : Store -> str -> option (StateSnapshot BrowserSession);
  (** [AgentState.add_to_current_state] *)
  add_to_current : Store -> str -> StateSnapshot BrowserSession -> Store
}.

Section Agent.

Context `{Collaborators}.

(** What the agent changes outside itself: the number of calls made to the
    model client and the agent-state store. *)
Record world : Type := {
  llm_calls : nat;
  states : Store
}.

(** Computations that read and change the world and may raise. *)
Definition M (A : Type) : Type := world -> res A * world.

#[global] Instance M_ret : MRet M := fun _ a w => (Ok a, w).

#[global] Instance M_bind : MBind M := fun _ _ k m w =>
  match m w with
  | (Ok a, w') => k a w'
  | (Raise e, w') => (Raise e, w')
  end.

Definition raise {A} (e : exn) : M A := fun w => (Raise e, w).

Definition lift {A} (r : res A) : M A := fun w => (r, w).

(** [for x in l: body x] *)
Fixpoint for_each {A} (l : list A) (body : A -> M unit) : M unit :=
  match l with
  | [] => mret tt
  | x :: l' => body x ≫= fun _ => for_each l' body
  end.

(** [Coder.render] *)
Definition render (step_by_step_plan user_context : str)
    (search_results : SearchResults) : M str :=
  mret (template step_by_step_plan user_context search_results).

(** [self.llm.inference(prompt)], for a client that answers: an exception
    of the client is not caught by the agent and ends [execute] with it. *)
Definition llm_inference (prompt : str) : M str := fun w =>
  (Ok (inference (llm_calls w) prompt),
   {| llm_calls := S (llm_calls w); states := states w |}).

(** [AgentState().get_latest_state(project)] *)
Definition get_latest_state (project : str) : M (option (StateSnapshot BrowserSession)) :=
  fun w => (Ok (get_latest (states w) project), w).

(** [AgentState().add_to_current_state(project, state)] *)
Definition add_to_current_state (project : str)
    (state : StateSnapshot BrowserSession) : M unit := fun w =>
  (Ok tt, {| llm_calls := llm_calls w; states := add_to_current (states w) project state |}).

(** [x[key]] where [x] may be [None]. *)
Definition subscript {A B} (x : option A) (key : A -> B) : M B :=
  match x with
  | Some a => mret (key a)
  | None => raise TypeError
  end.

(** [state[key] = value] for the keys the agent assigns. *)
Definition set_browser_session (state : StateSnapshot BrowserSession)
    (value : BrowserSession) : StateSnapshot BrowserSession :=
  {| browser_session := value;
     internal_monologue := internal_monologue state;
     terminal_session := terminal_session state |}.

Definition set_internal_monologue (state : StateSnapshot BrowserSession)
    (value : str) : StateSnapshot BrowserSession :=
  {| browser_session := browser_session state;
     internal_monologue := value;
     terminal_session := terminal_session state |}.

Definition set_terminal_session (state : StateSnapshot BrowserSession)
    (set : TerminalSession -> TerminalSession) : StateSnapshot BrowserSession :=
  {| browser_session := browser_session state;
     internal_monologue := internal_monologue state;
     terminal_session := set (terminal_session state) |}.

Definition set_title (value : str) (t : TerminalSession) : TerminalSession :=
  {| title := value; command := command t; output := output t |}.

Definition set_command (value : str) (t : TerminalSession) : TerminalSession :=
  {| title := title t; command := value; output := output t |}.

Definition set_output (value : str) (t : TerminalSession) : TerminalSession :=
  {| title := title t; command := command t; output := value |}.

(** The status line of the snapshot, U+6B63 U+5728 U+5BEB U+7A0B U+5F0F
    U+78BC and three full stops. *)
Definition writing_code : str :=
  [27491; 22312; 23531; 31243; 24335; 30908; 46; 46; 46]%N.

(** The prefix of the terminal title, U+7DE8 U+8F2F and a space. *)
Definition editing : str := [32232; 36655; 32]%N.

(** Lines 136 to 141: the snapshot built for one file. *)
Definition written (browser : BrowserSession) (file code : str) :
    StateSnapshot BrowserSession :=
  let new_state := new_state in
  let new_state := set_browser_session new_state browser in
  let new_state := set_internal_monologue new_state writing_code in
  let new_state := set_terminal_session new_state (set_title (editing ++ file)) in
  let new_state := set_terminal_session new_state (set_command (lit "vim " ++ file)) in
  let new_state := set_terminal_session new_state (set_output code) in
  new_state.

(** [Coder.emulate_code_writing]; the pause of two seconds after every file
    has no effect on the world of the model. *)
Definition emulate_code_writing (code_set : list CodeFile) (project_name : str) : M unit :=
  for_each code_set (fun current_file =>
    let file := file current_file in
    let code := code current_file in
    current_state ← get_latest_state project_name;
    browser ← subscript current_state browser_session;
    add_to_current_state project_name (written browser file code)).

(** [Coder.execute].  [project_name] is [None] when the caller passes no
    fourth argument, which Python answers with a [TypeError] before the body
    runs; [depth] is the number of frames the interpreter still allows.
    What [print] writes is not part of the world of the model. *)
Fixpoint execute (depth : nat) (step_by_step_plan user_context : str)
    (search_results : SearchResults) (project_name : option str) : M value :=
  match project_name, depth with
  | None, _ => raise TypeError
  | Some _, O => raise RecursionError
  | Some project_name, S depth' =>
      prompt ← render step_by_step_plan user_context search_results;
      response ← llm_inference prompt;
      valid_response ← lift (validate_response response);
      if negb (truthy valid_response) then
        (* return self.execute(step_by_step_plan, user_context, search_results) *)
        execute depth' step_by_step_plan user_context search_results None
      else
        match valid_response with
        | VList code_set =>
            emulate_code_writing code_set project_name;;
            mret valid_response
        | VBool _ => raise TypeError   (* a bool is not iterable *)
        end
  end.

End Agent.

(** ** Definitions used by the proofs *)

(** [s.split(c)] for a separator of one code point, by structural recursion:
    the form the proofs work with. *)
Fixpoint split_on (c : char) (s : str) : list str :=
  match s with
  | [] => [[]]
  | x :: s' =>
      if (x =? c)%N then [] :: split_on c s'
      else match split_on c s' with
           | l :: ls => (x :: l) :: ls
           | [] => [[x]]
           end
  end.

(** The number of positions of [s] at which [sep] occurs. *)
Fixpoint occurrences (s sep : str) : nat :=
  match s with
  | [] => 0
  | _ :: s' => (if startswith s sep then 1 else 0) + occurrences s' sep
  end.

(** ** Answers that survive re-serialization *)

(** A file name that the header line [File: `name`:] gives back: not empty,
    free of backticks and line feeds, and already trimmed. *)
Definition plain_name (n : str) : bool :=
  match n with [] => false | _ :: _ => true end
  && forallb (fun c => negb (c =? 96)%N && negb (c =? 10)%N) n
  && bool_decide (strip n = n).

(** A line of code that the scan keeps: neither a header nor a fence. *)
Definition plain_line (l : str) : bool :=
  negb (startswith l (lit "File: ")) && negb (startswith l (lit "```")).

Definition plain_code (c : str) : bool := forallb plain_line (split c NL).

Definition plain (f : CodeFile) : bool := plain_name (file f) && plain_code (code f).

(** The lines one entry of the serialized answer is made of. *)
Definition entry_lines (f : CodeFile) : list str :=
  (lit "File: `" ++ file f ++ lit "`:") :: lit "```"
    :: split_on 10 (code f) ++ [lit "```"].

(** Lower case within Basic Latin and Latin-1 Supplement, spelled out: the
    capital letters [A] to [Z] and U+00C0 to U+00DE, the multiplication sign
    U+00D7 apart, move up by 32. *)
Definition lower_char (c : char) : char :=
  (if (65 <=? c) && (c <=? 90) then c + 32
   else if (192 <=? c) && (c <=? 222) && negb (c =? 215) then c + 32
   else c)%N.

(** The spec's words for the slug of a project name: every space becomes
    a hyphen (after the name is put in lower case). *)
Definition hyphenate (c : char) : char := if (c =? 32)%N then 45%N else c.

(** A deterministic substitute for the collaborators: the client answers
    its [n]-th call with the [n]-th of [answers], the template puts its two
    texts one after the other, the browser sub-state is a text, and the store
    keeps for every project the snapshots appended to it, oldest first. *)
Definition scripted (answers : list str) : Collaborators :=
  {| BrowserSession := str;
     SearchResults := unit;
     Store := gmap str (list (StateSnapshot str));
     template := fun plan context _ => plan ++ NL ++ context;
     inference := fun n _ => default [] (answers !! n);
     new_state :=
       {| browser_session := [];
          internal_monologue := [];
          terminal_session := {| title := []; command := []; output := [] |} |};
     get_latest := fun σ project => last (default [] (σ !! project));
     add_to_current := fun σ project state =>
       <[project := default [] (σ !! project) ++ [state]]> σ |}.

(** A store with one snapshot for the project [demo], and two files. *)
Definition demo_snapshot : StateSnapshot str :=
  {| browser_session := lit "https://example.org";
     internal_monologue := [];
     terminal_session := {| title := []; command := []; output := [] |} |}.

Definition demo_world : world (H := scripted []) :=
  {| llm_calls := 0; states := {[ lit "demo" := [demo_snapshot] ]} |}.

Definition demo_files : list CodeFile :=
  [ {| file := lit "a.py"; code := lit "x" |};
    {| file := lit "b.py"; code := lit "y" |} ].

(** Lines 62 to 82 on the list of lines: the loop and the final flush. *)
Definition scan_all (lines : list str) : res (list CodeFile) :=
  st ← foldM scan_line scan0 lines; Ok (flush st).

(** A line that is not a fence of a code block. *)
Definition not_fence (line : str) : bool := negb (startswith line (lit "```")).

(** The path under which [save_code_to_project] writes the file [name]. *)
Definition project_file (project_dir project_name name : str) : str :=
  project_dir ++ lit "/" ++ replace (lower project_name) (lit " ") (lit "-")
    ++ lit "/" ++ name.

(** [path[:path.rfind("/")]], the directory [save_code_to_project] makes
    for a file. *)
Definition dirname (path : str) : str := slice_to path (rfind path (lit "/")).

(** Names within Basic Latin and Latin-1 Supplement, on which [str.lower]
    is [lower_char] code point by code point. *)
Definition latin1 (name : str) : Prop := Forall (fun c => (c < 256)%N) name.

(** A well-formed answer with one file. *)
Definition demo_answer : str :=
  lit "~~~" ++ NL ++ lit "File: `a.py`:" ++ NL ++ lit "x" ++ NL ++ lit "~~~".

(** Two states of the scan that differ at most in [code_block]. *)
Definition same_scan (st1 st2 : scan) : Prop :=
  result st1 = result st2 /\ current_file st1 = current_file st2
  /\ current_code st1 = current_code st2.

(** What the scan keeps true of its state: the files emitted are plain, the
    current name is trimmed and free of backticks and line feeds, and the
    lines gathered are neither headers nor fences. *)
Definition tidy (st : scan) : Prop :=
  Forall (fun f => plain f = true) (result st)
  /\ (forall n, current_file st = Some n -> (96%N ∉ n) /\ (10%N ∉ n) /\ strip n = n)
  /\ Forall (fun l => (10%N ∉ l) /\ plain_line l = true) (current_code st).

(** * Properties *)

Section StringFacts.

Implicit Types (s t p sep : str) (c x : char).

Lemma startswith_prefix s p : startswith s p = true <-> p `prefix_of` s.
Proof.
  revert s; induction p as [|d p IH]; intros [|c s]; simpl.
  - split; [intros _; apply prefix_nil | done].
  - split; [intros _; apply prefix_nil | done].
  - split; [done | intros [k Hk]; discriminate].
  - rewrite andb_true_iff, N.eqb_eq, IH. split.
    + intros [-> H]. by apply prefix_cons.
    + intros [k Hk]. simplify_eq/=. split; [done | by exists k].
Qed.

Lemma startswith_app p t : startswith (p ++ t) p = true.
Proof. apply startswith_prefix. by exists t. Qed.

Lemma find_cons x s sep :
  find (x :: s) sep = if startswith (x :: s) sep then Some 0 else S <$> find s sep.
Proof. reflexivity. Qed.

Lemma find_Some s sep i :
  find s sep = Some i -> s = take i s ++ sep ++ drop (i + length sep) s.
Proof.
  revert i; induction s as [|x s IH]; intros i.
  - destruct sep; [|done]. by intros [= <-].
  - rewrite find_cons. destruct (startswith (x :: s) sep) eqn:E.
    + intros [= <-]. apply startswith_prefix in E as [k Hk].
      simpl. rewrite Hk at 1. f_equal. rewrite Hk.
      by rewrite drop_app_length.
    + destruct (find s sep) as [j|] eqn:Ej; [|done].
      intros [= <-]. simpl. f_equal. by apply IH.
Qed.

Lemma find_None s sep a b : find s sep = None -> s <> a ++ sep ++ b.
Proof.
  revert a; induction s as [|x s IH]; intros a.
  - destruct sep; [done|]. intros _ H. destruct a; discriminate.
  - rewrite find_cons. destruct (startswith (x :: s) sep) eqn:E; [done|].
    destruct (find s sep) eqn:Ej; [done|]. intros _ H.
    destruct a as [|y a]; simpl in H.
    + apply not_true_iff_false in E. apply E, startswith_prefix. by exists b.
    + injection H as -> H. by eapply IH.
Qed.

Lemma find_None_suffix s t sep :
  find s sep = None -> t `suffix_of` s -> find t sep = None.
Proof.
  intros Hs [k ->]. destruct (find t sep) as [i|] eqn:E; [|done].
  apply find_Some in E. exfalso.
  eapply (find_None _ _ (k ++ take i t)); [exact Hs|].
  rewrite <- (assoc_L (++)). by rewrite <- E.
Qed.

Lemma find_None_prefix s t sep :
  find s sep = None -> t `prefix_of` s -> find t sep = None.
Proof.
  intros Hs [k ->]. destruct (find t sep) as [i|] eqn:E; [|done].
  apply find_Some in E. exfalso.
  eapply (find_None _ _ (take i t) (drop (i + length sep) t ++ k)); [exact Hs|].
  rewrite E at 1. by rewrite <- !(assoc_L (++)).
Qed.

Lemma lstrip_suffix s : lstrip s `suffix_of` s.
Proof.
  induction s as [|c s IH]; simpl; [done|].
  destruct (isspace c); [by apply suffix_cons_r | done].
Qed.

Lemma rstrip_prefix s : rstrip s `prefix_of` s.
Proof.
  unfold rstrip. destruct (lstrip_suffix (rev s)) as [k Hk].
  apply (f_equal (@rev N)) in Hk. rewrite rev_involutive, rev_app_distr in Hk.
  by exists (rev k).
Qed.

Lemma find_None_strip s sep : find s sep = None -> find (strip s) sep = None.
Proof.
  intros H. unfold strip.
  eapply find_None_prefix; [|apply rstrip_prefix].
  eapply find_None_suffix; [exact H | apply lstrip_suffix].
Qed.

(** *** Splitting on one code point *)

Lemma split_n_S n s sep :
  split_n (S n) s sep =
  match find s sep with
  | None => [s]
  | Some i => take i s :: split_n n (drop (i + length sep) s) sep
  end.
Proof. reflexivity. Qed.

Lemma find_single_cons x s c :
  find (x :: s) [c] = if (x =? c)%N then Some 0 else S <$> find s [c].
Proof.
  rewrite find_cons. cbn [startswith].
  by destruct s; rewrite ?andb_true_r.
Qed.

Lemma split_n_single_cons n x s c :
  x <> c ->
  split_n n (x :: s) [c] =
  match split_n n s [c] with
  | l :: ls => (x :: l) :: ls
  | [] => [[x]]
  end.
Proof.
  intros Hx. destruct n as [|n]; [done|].
  rewrite !split_n_S, find_single_cons.
  apply N.eqb_neq in Hx as ->.
  by destruct (find s [c]).
Qed.

Lemma split_n_single n s c :
  length s <= n -> split_n n s [c] = split_on c s.
Proof.
  revert n; induction s as [|x s IH]; intros n Hn.
  - by destruct n.
  - simpl in Hn. destruct (decide (x = c)) as [->|Hx]; cbn [split_on].
    + destruct n as [|n]; [lia|].
      rewrite split_n_S, find_single_cons, N.eqb_refl. simpl.
      f_equal. apply IH. lia.
    + rewrite split_n_single_cons by done.
      apply N.eqb_neq in Hx as ->. rewrite IH by lia. done.
Qed.

Lemma split_single s c : split s [c] = split_on c s.
Proof. by apply split_n_single. Qed.

Lemma split_on_nonempty c s : split_on c s <> [].
Proof.
  destruct s as [|x s]; simpl; [done|].
  destruct (x =? c)%N; [done|]. by destruct (split_on c s).
Qed.

Lemma split_on_free c s : c ∉ s -> split_on c s = [s].
Proof.
  induction s as [|x s IH]; [done|].
  intros [Hx Hs]%not_elem_of_cons. simpl.
  assert (x <> c) as ->%N.eqb_neq by done. by rewrite IH.
Qed.

Lemma split_on_app c a b :
  split_on c (a ++ c :: b) = split_on c a ++ split_on c b.
Proof.
  induction a as [|x a IH]; simpl.
  - by rewrite N.eqb_refl.
  - destruct (x =? c)%N; [by rewrite IH|].
    rewrite IH. pose proof (split_on_nonempty c a).
    by destruct (split_on c a).
Qed.

Lemma join_cons sep (u : str) (l : list str) :
  l <> [] -> join sep (u :: l) = u ++ sep ++ join sep l.
Proof. by destruct l. Qed.

Lemma join_split_on c s : join [c] (split_on c s) = s.
Proof.
  induction s as [|x s IH]; [done|]. simpl.
  pose proof (split_on_nonempty c s) as Hne.
  destruct (x =? c)%N eqn:Hx.
  - apply N.eqb_eq in Hx as ->. rewrite join_cons by done. by rewrite IH.
  - destruct (split_on c s) as [|l ls]; [done|].
    destruct ls as [|l' ls]; simpl in *; by rewrite <- IH.
Qed.

(** *** The last occurrence *)

Lemma rfind_nat_bound s sep i :
  rfind_nat s sep = Some i -> i + length sep <= length s.
Proof.
  revert i; induction s as [|x s IH]; intros i.
  - simpl. destruct sep; [|done]. intros [= <-]. simpl. lia.
  - cbn [rfind_nat]. destruct (rfind_nat s sep) as [j|] eqn:Ej.
    + intros [= <-]. specialize (IH _ eq_refl). simpl. lia.
    + destruct (startswith (x :: s) sep) eqn:E; [|done].
      intros [= <-]. apply startswith_prefix, prefix_length in E. lia.
Qed.

Lemma rfind_nat_app t sep :
  sep <> [] -> rfind_nat (t ++ sep) sep = Some (length t).
Proof.
  intros Hsep. induction t as [|x t IH].
  - destruct sep as [|d sep]; [done|]. cbn [app rfind_nat].
    destruct (rfind_nat sep (d :: sep)) as [j|] eqn:Ej.
    + apply rfind_nat_bound in Ej. simpl in Ej. lia.
    + assert (startswith (d :: sep) (d :: sep) = true) as ->; [|done].
      by apply startswith_prefix.
  - cbn [app rfind_nat]. by rewrite IH.
Qed.

(** *** Trimming *)

Lemma lstrip_space c s : isspace c = true -> lstrip (c :: s) = lstrip s.
Proof. intros H. simpl. by rewrite H. Qed.

Lemma lstrip_id c s : isspace c = false -> lstrip (c :: s) = c :: s.
Proof. intros H. simpl. by rewrite H. Qed.

Lemma rstrip_space c s : isspace c = true -> rstrip (s ++ [c]) = rstrip s.
Proof. intros H. unfold rstrip. rewrite rev_app_distr. simpl. by rewrite H. Qed.

Lemma rstrip_id c s : isspace c = false -> rstrip (s ++ [c]) = s ++ [c].
Proof.
  intros H. unfold rstrip. rewrite rev_app_distr. simpl. rewrite H.
  simpl. by rewrite rev_involutive.
Qed.

End StringFacts.

(** Closed facts about literals are settled by evaluation. *)
Ltac decide_lit := apply (proj1 (bool_decide_eq_true _)); vm_compute; reflexivity.

(** *** The builtins on small inputs *)

Example split_at_most_once :
  split_n 1 (lit "a~~~b~~~c") (lit "~~~") = [lit "a"; lit "b~~~c"].
Proof. reflexivity. Qed.

Example split_without_separator : split (lit "abc") NL = [lit "abc"].
Proof. reflexivity. Qed.

Example split_empty : split [] NL = [[]].
Proof. reflexivity. Qed.

Example rfind_absent : rfind (lit "abc") (lit "~~~") = (-1)%Z.
Proof. reflexivity. Qed.

Example rfind_last : rfind (lit "a/b/c") (lit "/") = 3%Z.
Proof. reflexivity. Qed.

Example slice_to_negative : slice_to (lit "abc") (-1) = lit "ab".
Proof. reflexivity. Qed.

Example slice_to_negative_empty : slice_to [] (-1) = [].
Proof. reflexivity. Qed.

Example strip_both_ends : strip (NL ++ lit "  a b " ++ NL) = lit "a b".
Proof. reflexivity. Qed.

Example replace_left_to_right : replace (lit "aaa") (lit "aa") (lit "b") = lit "ba".
Proof. reflexivity. Qed.

Example lower_ascii : lower (lit "My Project") = lit "my project".
Proof. vm_compute. reflexivity. Qed.

(** Greek alpha, a space and the dotted capital I. *)
Example lower_two_code_points : lower [913; 32; 304]%N = [945; 32; 105; 775]%N.
Proof. vm_compute. reflexivity. Qed.

(** The capital sigma at the end of a word and inside one. *)
Example lower_final_sigma : lower [927; 916; 927; 931]%N = [959; 948; 959; 962]%N.
Proof. vm_compute. reflexivity. Qed.

Example lower_first_and_final_sigma : lower [931; 927; 931]%N = [963; 959; 962]%N.
Proof. vm_compute. reflexivity. Qed.

Example lower_sigma_before_apostrophe : lower [913; 931; 39; 913]%N = [945; 963; 39; 945]%N.
Proof. vm_compute. reflexivity. Qed.

Example lower_sharp_s : lower [7838]%N = [223]%N.
Proof. vm_compute. reflexivity. Qed.

Example get_project_path_greek :
  get_project_path (lit "/root") [913; 32; 304]%N = lit "/root/" ++ [945; 45; 105; 775]%N.
Proof. vm_compute. reflexivity. Qed.

Example parse_two_files :
  validate_response
    (lit "Here:  ~~~" ++ NL ++ lit "File: `a/b.py`:" ++ NL ++ lit "```py" ++ NL
       ++ lit "x = 1" ++ NL ++ NL ++ lit "y" ++ NL ++ lit "```" ++ NL
       ++ lit "File: `c.py`:" ++ NL ++ lit "```" ++ NL ++ lit "z" ++ NL ++ lit "```"
       ++ NL ++ lit "~~~ bye")
  = Ok (VList [ {| file := lit "a/b.py"; code := lit "x = 1" ++ NL ++ NL ++ lit "y" |};
                {| file := lit "c.py"; code := lit "z" |} ]).
Proof. vm_compute. reflexivity. Qed.

(** ** The round trip *)

Section RoundTrip.

Implicit Types (f : CodeFile) (fs : list CodeFile) (st : scan).

Lemma foldM_app {A B} (g : A -> B -> res A) (a : A) (l1 l2 : list B) :
  foldM g a (l1 ++ l2) = a' ← foldM g a l1; foldM g a' l2.
Proof.
  revert a; induction l1 as [|b l1 IH]; intros a; [done|].
  simpl. destruct (g a b); [apply IH | done].
Qed.

Lemma plain_name_spec (n : str) :
  plain_name n = true -> n <> [] /\ (96%N ∉ n) /\ (10%N ∉ n) /\ strip n = n.
Proof.
  unfold plain_name. rewrite !andb_true_iff, forallb_forall.
  intros [[Hne Hall] Heq]. apply bool_decide_eq_true in Heq.
  repeat split; [by destruct n| | |done].
  - intros Hin. apply list_elem_of_In, Hall in Hin. by rewrite N.eqb_refl in Hin.
  - intros Hin. apply list_elem_of_In, Hall in Hin. rewrite N.eqb_refl in Hin.
    by rewrite andb_false_r in Hin.
Qed.

Lemma entry_unfold f :
  entry f = (lit "File: `" ++ file f ++ lit "`:")
              ++ 10%N :: lit "```" ++ 10%N :: code f ++ 10%N :: lit "```".
Proof. unfold entry, NL. by rewrite <- !(assoc_L (++)). Qed.

Lemma entry_split f :
  10%N ∉ file f -> split_on 10 (entry f) = entry_lines f.
Proof.
  intros Hn. rewrite entry_unfold. unfold entry_lines.
  rewrite split_on_app, (split_on_app 10 (lit "```")), (split_on_app 10 (code f)).
  rewrite (split_on_free 10 (_ ++ _ ++ _)); [done|].
  rewrite !not_elem_of_app. repeat split; [|done|]; by decide_lit.
Qed.

Lemma body_split fs :
  fs <> [] -> Forall (fun f => 10%N ∉ file f) fs ->
  split_on 10 (join NL (entry <$> fs)) = concat (entry_lines <$> fs).
Proof.
  intros Hne Hall. induction Hall as [|f fs Hf Hall IH]; [done|].
  destruct fs as [|g fs].
  - change (join NL (entry <$> [f])) with (entry f).
    rewrite entry_split by done. cbn [fmap list_fmap concat].
    by rewrite app_nil_r.
  - rewrite fmap_cons, join_cons by done.
    change (NL ++ ?t) with (10%N :: t).
    rewrite split_on_app, entry_split by done.
    by rewrite IH.
Qed.

Lemma find_startswith (s sep : str) :
  startswith s sep = true -> find s sep = Some 0.
Proof. intros H. destruct s; simpl in *; by rewrite H. Qed.

Lemma header_name (n : str) :
  plain_name n = true -> file_name (lit "File: `" ++ n ++ lit "`:") = Ok n.
Proof.
  intros (Hne & Hbt & Hnl & Hstrip)%plain_name_spec.
  unfold file_name. change (lit "`") with [96%N]. rewrite split_single.
  change (lit "File: `" ++ n ++ lit "`:")
    with (lit "File: " ++ 96%N :: n ++ 96%N :: lit ":").
  rewrite split_on_app, split_on_app.
  rewrite (split_on_free 96 (lit "File: ")) by decide_lit.
  rewrite (split_on_free 96 n) by done.
  simpl. by rewrite Hstrip.
Qed.

Lemma scan_header st (n : str) :
  plain_name n = true ->
  scan_line st (lit "File: `" ++ n ++ lit "`:")
  = Ok {| result := flush st; current_file := Some n;
          current_code := []; code_block := false |}.
Proof.
  intros Hn. unfold scan_line.
  change (lit "File: `" ++ n ++ lit "`:")
    with (lit "File: " ++ (96%N :: n ++ lit "`:")) at 1.
  rewrite startswith_app. by rewrite header_name.
Qed.

Lemma scan_plain_line st (l : str) :
  plain_line l = true ->
  scan_line st l
  = Ok {| result := result st; current_file := current_file st;
          current_code := current_code st ++ [l]; code_block := code_block st |}.
Proof.
  unfold plain_line. intros [H1 H2]%andb_true_iff.
  apply negb_true_iff in H1, H2. unfold scan_line. by rewrite H1, H2.
Qed.

Lemma scan_fence st :
  scan_line st (lit "```")
  = Ok {| result := result st; current_file := current_file st;
          current_code := current_code st; code_block := negb (code_block st) |}.
Proof. reflexivity. Qed.

Lemma scan_plain_lines st (ls : list str) :
  forallb plain_line ls = true ->
  foldM scan_line st ls
  = Ok {| result := result st; current_file := current_file st;
          current_code := current_code st ++ ls; code_block := code_block st |}.
Proof.
  revert st; induction ls as [|l ls IH]; intros st Hall.
  - simpl. rewrite app_nil_r. by destruct st.
  - simpl in Hall. apply andb_true_iff in Hall as [Hl Hall].
    cbn [foldM]. rewrite scan_plain_line by done.
    cbn [mbind res_bind]. rewrite IH by done. cbn.
    by rewrite <- (assoc_L (++)).
Qed.

Lemma scan_entry st f :
  plain f = true ->
  foldM scan_line st (entry_lines f)
  = Ok {| result := flush st; current_file := Some (file f);
          current_code := split_on 10 (code f); code_block := false |}.
Proof.
  unfold plain, plain_code. intros [Hn Hc]%andb_true_iff.
  unfold NL in Hc. rewrite split_single in Hc.
  unfold entry_lines. cbn [foldM]. rewrite scan_header by done.
  cbn [mbind res_bind]. rewrite scan_fence.
  cbn [mbind res_bind]. rewrite foldM_app.
  rewrite scan_plain_lines by done.
  cbn [mbind res_bind foldM]. rewrite scan_fence. reflexivity.
Qed.

Lemma flush_entry st f :
  plain f = true ->
  flush {| result := flush st; current_file := Some (file f);
           current_code := split_on 10 (code f); code_block := false |}
  = flush st ++ [f].
Proof.
  intros [Hn _]%andb_true_iff. apply plain_name_spec in Hn as [Hne _].
  unfold flush at 1. cbn [current_file current_code result].
  pose proof (split_on_nonempty 10 (code f)) as Hs.
  pose proof (join_split_on 10 (code f)) as Hj.
  destruct f as [n c]; cbn [file code] in *.
  destruct n as [|x n]; [done|].
  destruct (split_on 10 c) as [|l ls]; [done|].
  unfold NL. by rewrite Hj.
Qed.

Lemma scan_entries fs st :
  Forall (fun f => plain f = true) fs ->
  exists st', foldM scan_line st (concat (entry_lines <$> fs)) = Ok st'
              /\ flush st' = flush st ++ fs.
Proof.
  intros Hall. revert st. induction Hall as [|f fs Hf Hall IH]; intros st.
  - exists st. by rewrite app_nil_r.
  - cbn [fmap list_fmap concat]. rewrite foldM_app, scan_entry by done.
    cbn [mbind res_bind]. destruct (IH
      {| result := flush st; current_file := Some (file f);
         current_code := split_on 10 (code f); code_block := false |})
      as (st' & Hrun & Hflush).
    exists st'. split; [done|].
    by rewrite Hflush, flush_entry, <- (assoc_L (++)).
Qed.

Lemma strip_id (s t u : str) (c z : char) :
  s = c :: t -> s = u ++ [z] -> isspace c = false -> isspace z = false ->
  strip s = s.
Proof.
  intros H1 H2 Hc Hz. unfold strip. rewrite H1, lstrip_id by done.
  rewrite <- H1, H2. by apply rstrip_id.
Qed.

Lemma lstrip_snoc_space (s : str) (c : char) :
  isspace c = true -> rstrip (lstrip (s ++ [c])) = rstrip (lstrip s).
Proof.
  intros Hc. induction s as [|x s IH].
  - simpl. by rewrite Hc.
  - cbn [app lstrip]. destruct (isspace x); [done|].
    change (x :: s ++ [c]) with ((x :: s) ++ [c]).
    by rewrite rstrip_space.
Qed.

Lemma strip_lines (s : str) : strip (NL ++ s ++ NL) = strip s.
Proof.
  unfold strip, NL. cbn [app]. rewrite lstrip_space by done.
  by rewrite lstrip_snoc_space.
Qed.

Lemma fenced_serialized fs :
  fenced (response_to_markdown_prompt fs) = Ok (strip (join NL (entry <$> fs))).
Proof.
  unfold fenced, response_to_markdown_prompt.
  set (body := join NL (entry <$> fs)).
  rewrite (strip_id _ (lit "~~" ++ NL ++ body ++ NL ++ lit "~~~")
             (lit "~~~" ++ NL ++ body ++ NL ++ lit "~~") 126 126);
    [|done| |done|done].
  2:{ change (lit "~~~") with (lit "~~" ++ [126%N]) at 2.
      by rewrite <- !(assoc_L (++)). }
  rewrite split_n_S, find_startswith by apply startswith_app.
  change (length (lit "~~~")) with 3.
  change (drop (0 + 3) (lit "~~~" ++ ?t)) with t.
  cbn [split_n item lookup list_lookup mbind res_bind].
  unfold rfind. rewrite !(assoc_L (++) _ _ (lit "~~~")).
  rewrite rfind_nat_app by done.
  unfold slice_to. rewrite (proj2 (Z.ltb_ge _ _)) by lia.
  rewrite Nat2Z.id, take_app_length.
  by rewrite strip_lines.
Qed.

Lemma body_strip fs :
  fs <> [] -> strip (join NL (entry <$> fs)) = join NL (entry <$> fs).
Proof.
  intros Hne.
  assert (exists u, join NL (entry <$> fs) = u ++ [96%N]) as [u Hu].
  { induction fs as [|f fs IH]; [done|]. destruct fs as [|g fs].
    - exists (lit "File: `" ++ file f ++ lit "`:" ++ NL ++ lit "```" ++ NL
                ++ code f ++ NL ++ lit "``").
      change (join NL (entry <$> [f])) with (entry f). unfold entry.
      change (lit "```") with (lit "``" ++ [96%N]) at 2.
      by rewrite <- !(assoc_L (++)).
    - destruct IH as [u Hu]; [done|]. exists (entry f ++ NL ++ u).
      rewrite fmap_cons, join_cons by done. rewrite Hu.
      by rewrite <- !(assoc_L (++)). }
  destruct fs as [|f fs]; [done|].
  destruct fs as [|g fs];
    (eapply (strip_id _ _ u 70 96); [reflexivity|exact Hu|done|done]).
Qed.

(** The scan of a serialized list of plain files gives the list back. *)
Lemma scan_lines_serialized fs :
  Forall (fun f => plain f = true) fs ->
  scan_lines (strip (join NL (entry <$> fs))) = Ok fs.
Proof.
  intros Hall. unfold scan_lines.
  destruct fs as [|f fs]; [reflexivity|].
  rewrite body_strip by done. unfold NL at 2. rewrite split_single.
  rewrite body_split by
    (done || (eapply Forall_impl; [exact Hall|]; intros g [Hg _]%andb_true_iff;
              by apply plain_name_spec in Hg as (_ & _ & ? & _))).
  destruct (scan_entries (f :: fs) scan0 Hall) as (st' & -> & Hflush).
  cbn [mbind res_bind]. by rewrite Hflush.
Qed.

(** The round trip needs nothing but plain files: the list may be empty,
    and names and contents may repeat. *)
Lemma roundtrip_general fs :
  Forall (fun f => plain f = true) fs ->
  validate_response (response_to_markdown_prompt fs) = Ok (VList fs).
Proof.
  intros Hall. unfold validate_response.
  rewrite fenced_serialized. cbn [mbind res_bind].
  by rewrite (scan_lines_serialized fs Hall).
Qed.

End RoundTrip.

(** ** The fences *)

Section Fences.

Implicit Types (response body line : str) (st : scan).

Lemma fenced_no_fence response :
  find response (lit "~~~") = None -> fenced response = Raise IndexError.
Proof.
  intros H%find_None_strip. unfold fenced. by rewrite split_n_S, H.
Qed.

Lemma rfind_nonneg (s sep : str) (j : nat) :
  rfind s sep = Z.of_nat j -> rfind_nat s sep = Some j.
Proof.
  unfold rfind. destruct (rfind_nat s sep) as [k|]; intros Hj; [|lia].
  f_equal. lia.
Qed.

Lemma fenced_closed response (i j : nat) :
  find (strip response) (lit "~~~") = Some i ->
  rfind_nat (drop (i + 3) (strip response)) (lit "~~~") = Some j ->
  fenced response = Ok (strip (take j (drop (i + 3) (strip response)))).
Proof.
  intros Hi Hj. unfold fenced. rewrite split_n_S, Hi.
  change (length (lit "~~~")) with 3.
  cbn [split_n item lookup list_lookup mbind res_bind].
  unfold rfind, slice_to. rewrite Hj.
  rewrite (proj2 (Z.ltb_ge _ _)) by lia. by rewrite Nat2Z.id.
Qed.

Lemma fenced_open response (i : nat) :
  find (strip response) (lit "~~~") = Some i ->
  rfind_nat (drop (i + 3) (strip response)) (lit "~~~") = None ->
  let rest := drop (i + 3) (strip response) in
  fenced response = Ok (strip (take (length rest - 1) rest)).
Proof.
  intros Hi Hj rest. unfold fenced. rewrite split_n_S, Hi.
  change (length (lit "~~~")) with 3.
  cbn [split_n item lookup list_lookup mbind res_bind].
  subst rest. unfold rfind, slice_to. rewrite Hj.
  change (-1 <? 0)%Z with true. cbv iota.
  do 3 f_equal. lia.
Qed.

(** The scan raises nothing but [IndexError]. *)
Lemma scan_line_raise st line e : scan_line st line = Raise e -> e = IndexError.
Proof.
  unfold scan_line, file_name, item.
  destruct (startswith line (lit "File: ")).
  - destruct (split line (lit "`") !! 1); cbn; congruence.
  - destruct (startswith line (lit "```")); congruence.
Qed.

Lemma scan_lines_raise body e : scan_lines body = Raise e -> e = IndexError.
Proof.
  unfold scan_lines. generalize scan0 as st.
  induction (split body NL) as [|l ls IH]; intros st; [done|].
  cbn [foldM]. destruct (scan_line st l) as [st'|e'] eqn:El; cbn [mbind res_bind].
  - apply IH.
  - intros [= <-]. by eapply scan_line_raise.
Qed.

Lemma scan_line_no_header st line :
  startswith line (lit "File: ") = false ->
  exists st', scan_line st line = Ok st'
              /\ result st' = result st /\ current_file st' = current_file st.
Proof.
  intros Hl. unfold scan_line. rewrite Hl.
  destruct (startswith line (lit "```")); by eexists.
Qed.

(** Without a header line the scan keeps [result] and [current_file]. *)
Lemma scan_no_header (ls : list str) st :
  Forall (fun l => startswith l (lit "File: ") = false) ls ->
  exists st', foldM scan_line st ls = Ok st'
              /\ result st' = result st /\ current_file st' = current_file st.
Proof.
  intros Hall. revert st. induction Hall as [|l ls Hl Hall IH]; intros st.
  - by exists st.
  - cbn [foldM].
    destruct (scan_line_no_header st l Hl) as (st1 & -> & Hres1 & Hcur1).
    cbn [mbind res_bind].
    destruct (IH st1) as (st' & Hrun & Hres & Hcur).
    exists st'. by rewrite Hrun, Hres, Hcur.
Qed.

Lemma scan_lines_no_header body :
  Forall (fun l => startswith l (lit "File: ") = false) (split body NL) ->
  scan_lines body = Ok [].
Proof.
  intros Hall. unfold scan_lines.
  destruct (scan_no_header _ scan0 Hall) as (st' & -> & Hres & Hcur).
  cbn [mbind res_bind]. unfold flush. by rewrite Hcur, Hres.
Qed.

(** A header line without a backtick has no second piece. *)
Lemma file_name_no_backtick line : 96%N ∉ line -> file_name line = Raise IndexError.
Proof.
  intros Hb. unfold file_name. change (lit "`") with [96%N].
  by rewrite split_single, split_on_free.
Qed.

Lemma scan_line_no_backtick st line :
  startswith line (lit "File: ") = true -> 96%N ∉ line ->
  scan_line st line = Raise IndexError.
Proof.
  intros Hs Hb. unfold scan_line. by rewrite Hs, file_name_no_backtick.
Qed.

Lemma scan_lines_bad_header body line :
  line ∈ split body NL ->
  startswith line (lit "File: ") = true -> 96%N ∉ line ->
  scan_lines body = Raise IndexError.
Proof.
  intros Hin Hs Hb. unfold scan_lines. generalize scan0 as st.
  induction Hin as [l ls|l l' ls Hin IH]; intros st; cbn [foldM].
  - by rewrite scan_line_no_backtick.
  - destruct (scan_line st l') as [st'|e] eqn:El; cbn [mbind res_bind].
    + by apply IH.
    + by apply scan_line_raise in El as ->.
Qed.

End Fences.

(** ** An opening fence without a closing one *)

Section OpenFence.

Implicit Types (s t a b sep response : str) (c x : char).

Lemma rfind_nat_Some s sep i :
  rfind_nat s sep = Some i -> s = take i s ++ sep ++ drop (i + length sep) s.
Proof.
  revert i; induction s as [|x s IH]; intros i.
  - simpl. destruct sep; [|done]. by intros [= <-].
  - cbn [rfind_nat]. destruct (rfind_nat s sep) as [j|] eqn:Ej.
    + intros [= <-]. simpl. f_equal. by apply IH.
    + destruct (startswith (x :: s) sep) eqn:E; [|done].
      intros [= <-]. apply startswith_prefix in E as [k Hk].
      simpl. rewrite Hk at 1. f_equal. rewrite Hk.
      by rewrite drop_app_length.
Qed.

Lemma find_None_rfind s sep : find s sep = None -> rfind_nat s sep = None.
Proof.
  intros Hf. destruct (rfind_nat s sep) as [j|] eqn:Ej; [|done].
  apply rfind_nat_Some in Ej. by apply (find_None _ _ _ _ Hf) in Ej.
Qed.

Lemma startswith_app_long a b sep :
  length sep <= length a -> startswith (a ++ b) sep = startswith a sep.
Proof.
  revert a; induction sep as [|d sep IH]; intros [|x a] Hlen; simpl in *;
    try done; try lia.
  - by destruct b.
  - by rewrite IH by lia.
Qed.

(** The first occurrence does not depend on what follows it. *)
Lemma find_app_stable a b b' sep i :
  find (a ++ b) sep = Some i -> i + length sep <= length a ->
  find (a ++ b') sep = Some i.
Proof.
  revert i; induction a as [|x a IH]; intros i Hf Hlen.
  - simpl in Hlen. destruct sep; [|simpl in Hlen; lia].
    assert (i = 0) as -> by lia. by destruct b'.
  - change ((x :: a) ++ b) with (x :: (a ++ b)) in Hf.
    change ((x :: a) ++ b') with (x :: (a ++ b')).
    rewrite find_cons in *.
    change (x :: (a ++ b)) with ((x :: a) ++ b) in Hf.
    change (x :: (a ++ b')) with ((x :: a) ++ b').
    rewrite startswith_app_long in * by lia.
    destruct (startswith (x :: a) sep); [done|].
    destruct (find (a ++ b) sep) as [j|] eqn:Ej; [|done].
    injection Hf as <-. simpl in Hlen.
    by rewrite (IH j) by (done || lia).
Qed.

Lemma lstrip_head s c t : lstrip s = c :: t -> isspace c = false.
Proof.
  induction s as [|x s IH]; [done|]. simpl.
  destruct (isspace x) eqn:Ex; [done|]. by intros [= <- _].
Qed.

Lemma strip_head s c t : strip s = c :: t -> isspace c = false.
Proof.
  unfold strip. intros Hs.
  destruct (rstrip_prefix (lstrip s)) as [k Hk]. rewrite Hs in Hk.
  by eapply lstrip_head.
Qed.

Lemma occurrences_find s sep i :
  find s sep = Some i -> sep <> [] ->
  occurrences s sep = S (occurrences (drop (S i) s) sep).
Proof.
  intros Hf Hsep. revert i Hf. induction s as [|x s IH]; intros i Hf.
  - by destruct sep.
  - rewrite find_cons in Hf. cbn [occurrences].
    destruct (startswith (x :: s) sep).
    + by injection Hf as <-.
    + destruct (find s sep) as [j|] eqn:Ej; [|done].
      injection Hf as <-. by rewrite (IH j).
Qed.

Lemma occurrences_0 s sep : occurrences s sep = 0 -> sep <> [] -> find s sep = None.
Proof.
  intros Ho Hsep. induction s as [|x s IH]; [by destruct sep|].
  cbn [occurrences] in Ho. rewrite find_cons.
  destruct (startswith (x :: s) sep); [done|]. by rewrite IH.
Qed.

Lemma occurrences_drop s sep k : occurrences (drop k s) sep <= occurrences s sep.
Proof.
  revert k; induction s as [|x s IH]; intros [|k]; simpl; try done.
  specialize (IH k). lia.
Qed.

(** Exactly one occurrence: none in what follows the first. *)
Lemma occurrences_1 s sep i :
  occurrences s sep = 1 -> find s sep = Some i -> sep <> [] ->
  find (drop (i + length sep) s) sep = None.
Proof.
  intros Ho Hf Hsep. apply occurrences_0; [|done].
  rewrite (occurrences_find _ _ _ Hf Hsep) in Ho.
  destruct sep as [|d sep]; [done|]. simpl length.
  replace (i + S (length sep)) with (S i + length sep) by lia.
  rewrite <- drop_drop.
  pose proof (occurrences_drop (drop (S i) s) (d :: sep) (length sep)). lia.
Qed.

End OpenFence.

Section OpenFenceParse.

Implicit Types (response body line : str) (st : scan).

Lemma file_name_backtick line : 96%N ∈ line -> exists n, file_name line = Ok n.
Proof.
  intros (a & b & ->)%list_elem_of_split. unfold file_name.
  change (lit "`") with [96%N]. rewrite split_single, split_on_app.
  pose proof (split_on_nonempty 96 a) as Ha.
  pose proof (split_on_nonempty 96 b) as Hb.
  destruct (split_on 96 a) as [|l [|l2 ls]]; [done| |]; cbn; [|by eexists].
  destruct (split_on 96 b) as [|l' ls']; [done|]. by eexists.
Qed.

Lemma scan_line_ok st line :
  (startswith line (lit "File: ") = true -> 96%N ∈ line) ->
  exists st', scan_line st line = Ok st'.
Proof.
  intros Hb. unfold scan_line.
  destruct (startswith line (lit "File: ")).
  - destruct (file_name_backtick line) as [n ->]; [by apply Hb|]. by eexists.
  - destruct (startswith line (lit "```")); by eexists.
Qed.

Lemma scan_lines_ok body :
  Forall (fun line => startswith line (lit "File: ") = true -> 96%N ∈ line)
         (split body NL) ->
  exists l, scan_lines body = Ok l.
Proof.
  intros Hall. unfold scan_lines. generalize scan0 as st.
  induction Hall as [|l ls Hl Hall IH]; intros st; cbn [foldM].
  - by eexists.
  - destruct (scan_line_ok st l Hl) as [st' ->]. cbn [mbind res_bind]. apply IH.
Qed.

(** With an opening fence and no fence after it, the last code point of the
    remaining text is dropped, and the same text is obtained as from the
    response in which a closing fence stands in its place. *)
Lemma fenced_open_as_closed response (i : nat) :
  find (strip response) (lit "~~~") = Some i ->
  find (drop (i + 3) (strip response)) (lit "~~~") = None ->
  let rest := drop (i + 3) (strip response) in
  let kept := take (length rest - 1) rest in
  fenced response = Ok (strip kept)
  /\ fenced (take (i + 3) (strip response) ++ kept ++ lit "~~~") = Ok (strip kept).
Proof.
  intros Hi Hnone rest kept. split.
  { apply (fenced_open response i Hi). by apply find_None_rfind. }
  set (t := strip response) in *.
  pose proof (find_Some _ _ _ Hi) as Ht. change (length (lit "~~~")) with 3 in Ht.
  assert (length (take (i + 3) t) = i + 3) as Hlen.
  { rewrite length_take. apply (f_equal length) in Ht.
    rewrite !length_app, length_take, length_drop in Ht.
    change (length (lit "~~~")) with 3 in Ht. lia. }
  assert (strip (take (i + 3) t ++ kept ++ lit "~~~")
          = take (i + 3) t ++ kept ++ lit "~~~") as Hstrip.
  { destruct t as [|c u] eqn:Et; [by destruct i|].
    eapply (strip_id _ _ (take (i + 3) (c :: u) ++ kept ++ lit "~~") c 126).
    - replace (i + 3) with (S (i + 2)) by lia. reflexivity.
    - change (lit "~~~") with (lit "~~" ++ [126%N]).
      by rewrite <- !(assoc_L (++)).
    - by apply (strip_head response c u).
    - done. }
  assert (find (take (i + 3) t ++ kept ++ lit "~~~") (lit "~~~") = Some i) as Hi'.
  { apply (find_app_stable _ rest); [|change (length (lit "~~~")) with 3; lia].
    subst rest. by rewrite take_drop. }
  rewrite (fenced_closed _ i (length kept)); rewrite Hstrip; [|done|].
  - rewrite <- Hlen at 1. by rewrite drop_app_length, take_app_length.
  - rewrite <- Hlen at 1. rewrite drop_app_length. by apply rfind_nat_app.
Qed.

End OpenFenceParse.

(** * The claims about the parser *)

(** C1, as stated, fails: a file whose content is a line of three backticks
    is serialized to an entry whose code lines are all taken for fences, so
    nothing is parsed back, although the list is not empty, the paths are
    distinct and the content is not empty. *)
Lemma roundtrip_loses_fence_line :
  [ {| file := lit "a.py"; code := lit "```" |} ] <> []
  /\ NoDup (file <$> [ {| file := lit "a.py"; code := lit "```" |} ])
  /\ Forall (fun f => code f <> []) [ {| file := lit "a.py"; code := lit "```" |} ]
  /\ validate_response
       (response_to_markdown_prompt [ {| file := lit "a.py"; code := lit "```" |} ])
     = Ok (VList [])
  /\ validate_response
       (response_to_markdown_prompt [ {| file := lit "a.py"; code := lit "```" |} ])
     <> Ok (VList [ {| file := lit "a.py"; code := lit "```" |} ]).
Proof.
  split; [done|]. split; [apply NoDup_singleton|].
  split; [by repeat constructor|].
  split; [by vm_compute|]. by vm_compute.
Qed.

(** C1, amended: round trip.  For every non-empty list of files with
    distinct paths and non-empty content in which every path is not empty,
    holds no backtick and no line feed and is already trimmed, and in which
    no line of any content starts with [File: ] or with three backticks,
    parsing the serialized list gives the list back, order, names and
    content preserved. *)
Theorem roundtrip (fs : list CodeFile) :
  fs <> [] ->
  NoDup (file <$> fs) ->
  Forall (fun f => code f <> []) fs ->
  Forall (fun f => plain f = true) fs ->
  validate_response (response_to_markdown_prompt fs) = Ok (VList fs).
Proof.
  intros _ _ _ Hplain. unfold validate_response.
  rewrite fenced_serialized. cbn [mbind res_bind].
  rewrite (scan_lines_serialized fs Hplain). reflexivity.
Qed.

Lemma roundtrip_witness :
  validate_response
    (response_to_markdown_prompt
       [ {| file := lit "a/b.py"; code := lit "x = 1" ++ NL ++ NL ++ lit "print(x)" |};
         {| file := lit "c.py"; code := lit "y" |} ])
  = Ok (VList
       [ {| file := lit "a/b.py"; code := lit "x = 1" ++ NL ++ NL ++ lit "print(x)" |};
         {| file := lit "c.py"; code := lit "y" |} ]).
Proof.
  apply roundtrip.
  - done.
  - apply (proj1 (bool_decide_eq_true _)). vm_compute. reflexivity.
  - by repeat constructor.
  - repeat constructor; vm_compute; reflexivity.
Defined.

(** C3: a response that holds no [~~~] at all makes [validate_response]
    raise [IndexError]; it returns no list, empty or partial. *)
Theorem validate_response_unfenced (response : str) :
  find response (lit "~~~") = None ->
  validate_response response = Raise IndexError.
Proof.
  intros H. unfold validate_response. by rewrite fenced_no_fence.
Qed.

Lemma validate_response_unfenced_witness :
  validate_response (lit "Sorry, I cannot write that code. ~~") = Raise IndexError.
Proof. apply validate_response_unfenced. vm_compute. reflexivity. Defined.

(** The interior of a fenced response is scanned after trimming: blanks
    before the first header do not hide it from the scan. *)
Example header_after_blanks :
  validate_response (lit "~~~  File: `a.py`" ++ NL ++ lit "x" ++ NL ++ lit "~~~")
  = Ok (VList [ {| file := lit "a.py"; code := lit "x" |} ]).
Proof. vm_compute. reflexivity. Qed.

(** C6, as stated, fails: the fences below are balanced and no line of the
    text between them starts with [File: ], the header line starting with
    two blanks; the interior is trimmed before it is scanned, so when that
    line is the first that is not blank its blanks go, and a file is
    returned. *)
Lemma no_header_line_yet_a_file :
  find (strip (lit "~~~" ++ NL ++ lit "  File: `a.py`" ++ NL ++ lit "x" ++ NL ++ lit "~~~"))
       (lit "~~~") = Some 0
  /\ rfind (drop 3 (strip (lit "~~~" ++ NL ++ lit "  File: `a.py`" ++ NL ++ lit "x" ++ NL
                             ++ lit "~~~")))
           (lit "~~~") = 18%Z
  /\ take 18 (drop 3 (strip (lit "~~~" ++ NL ++ lit "  File: `a.py`" ++ NL ++ lit "x" ++ NL
                               ++ lit "~~~")))
     = NL ++ lit "  File: `a.py`" ++ NL ++ lit "x" ++ NL
  /\ Forall (fun line => startswith line (lit "File: ") = false)
            (split (NL ++ lit "  File: `a.py`" ++ NL ++ lit "x" ++ NL) NL)
  /\ validate_response
       (lit "~~~" ++ NL ++ lit "  File: `a.py`" ++ NL ++ lit "x" ++ NL ++ lit "~~~")
     = Ok (VList [ {| file := lit "a.py"; code := lit "x" |} ])
  /\ validate_response
       (lit "~~~" ++ NL ++ lit "  File: `a.py`" ++ NL ++ lit "x" ++ NL ++ lit "~~~")
     <> Ok (VList []).
Proof.
  split; [by vm_compute|]. split; [by vm_compute|]. split; [by vm_compute|].
  split; [vm_compute; repeat constructor|]. split; by vm_compute.
Qed.

(** C6, amended: with an opening fence at [i] and a closing fence at [j] of
    the text after it, when no line of the interior as it is scanned, that
    is the text between the two fences once trimmed, starts with [File: ],
    [validate_response] returns the empty list: a value, not an exception
    and not [False]. *)
Theorem validate_response_no_header (response : str) (i j : nat) :
  find (strip response) (lit "~~~") = Some i ->
  rfind (drop (i + 3) (strip response)) (lit "~~~") = Z.of_nat j ->
  Forall (fun line => startswith line (lit "File: ") = false)
         (split (strip (take j (drop (i + 3) (strip response)))) NL) ->
  validate_response response = Ok (VList []).
Proof.
  intros Hi Hj%rfind_nonneg Hall. unfold validate_response.
  rewrite (fenced_closed response i j Hi Hj). cbn [mbind res_bind].
  by rewrite scan_lines_no_header.
Qed.

Lemma validate_response_no_header_witness :
  validate_response
    (lit "Sure: ~~~" ++ NL ++ lit "```" ++ NL ++ lit "print(1)" ++ NL ++ lit "```"
       ++ NL ++ lit "~~~ done")
  = Ok (VList []).
Proof.
  apply (validate_response_no_header _ 6 18).
  - vm_compute. reflexivity.
  - vm_compute. reflexivity.
  - vm_compute. repeat constructor.
Defined.

(** C8, as stated, fails: a header line with one backtick has a second
    piece, the text after the backtick, and that is taken for the name. *)
Lemma header_with_one_backtick :
  startswith (lit "File: `a.py") (lit "File: ") = true
  /\ occurrences (lit "File: `a.py") (lit "`") < 2
  /\ file_name (lit "File: `a.py") = Ok (lit "a.py")
  /\ validate_response
       (lit "~~~" ++ NL ++ lit "File: `a.py" ++ NL ++ lit "x" ++ NL ++ lit "~~~")
     = Ok (VList [ {| file := lit "a.py"; code := lit "x" |} ]).
Proof.
  split; [by vm_compute|]. split; [vm_compute; lia|].
  split; by vm_compute.
Qed.

(** C8, amended: for every line that starts with [File: ] and holds no
    backtick, the extraction of the file name raises [IndexError], so does
    the scan of that line in any state, and so does [validate_response] on
    every response that has the line among its scanned lines. *)
Theorem header_without_backtick (line : str) :
  startswith line (lit "File: ") = true ->
  96%N ∉ line ->
  file_name line = Raise IndexError
  /\ (forall st, scan_line st line = Raise IndexError)
  /\ (forall response body,
        fenced response = Ok body -> line ∈ split body NL ->
        validate_response response = Raise IndexError).
Proof.
  intros Hs Hb. split; [by apply file_name_no_backtick|].
  split; [intros st; by apply scan_line_no_backtick|].
  intros response body Hf Hin. unfold validate_response. rewrite Hf.
  cbn [mbind res_bind]. by rewrite (scan_lines_bad_header body line).
Qed.

Lemma header_without_backtick_witness :
  file_name (lit "File: main.py") = Raise IndexError
  /\ validate_response
       (lit "~~~" ++ NL ++ lit "File: main.py" ++ NL ++ lit "x" ++ NL ++ lit "~~~")
     = Raise IndexError.
Proof.
  assert (startswith (lit "File: main.py") (lit "File: ") = true) as Hs
    by (vm_compute; reflexivity).
  assert (96%N ∉ lit "File: main.py") as Hb
    by (apply (proj1 (bool_decide_eq_true _)); vm_compute; reflexivity).
  destruct (header_without_backtick (lit "File: main.py") Hs Hb) as (Hn & _ & Hv).
  split; [exact Hn|].
  apply (Hv _ (lit "File: main.py" ++ NL ++ lit "x")).
  - vm_compute. reflexivity.
  - apply (proj1 (bool_decide_eq_true _)). vm_compute. reflexivity.
Defined.

(** C9, as stated, fails: the response below has one [~~~] and nothing
    after the header line survives but [File: x], a header without a
    backtick, on which [validate_response] raises. *)
Lemma open_fence_can_raise :
  occurrences (strip (lit "~~~" ++ NL ++ lit "File: xy")) (lit "~~~") = 1
  /\ validate_response (lit "~~~" ++ NL ++ lit "File: xy") = Raise IndexError.
Proof. split; by vm_compute. Qed.

(** C9, amended: when the trimmed response holds exactly one [~~~], at
    [i], the missing closing fence is not signalled: the search for the last
    [~~~] finds nothing, only the last code point of the remaining text is
    dropped, and the result is that of the response in which a closing fence
    stands in place of that code point; it is a list unless a scanned
    [File: ] line holds no backtick. *)
Theorem validate_response_open_fence (response : str) (i : nat) :
  occurrences (strip response) (lit "~~~") = 1 ->
  find (strip response) (lit "~~~") = Some i ->
  let rest := drop (i + 3) (strip response) in
  let kept := take (length rest - 1) rest in
  rfind rest (lit "~~~") = (-1)%Z
  /\ fenced response = Ok (strip kept)
  /\ validate_response response
     = validate_response (take (i + 3) (strip response) ++ kept ++ lit "~~~")
  /\ (Forall (fun line => startswith line (lit "File: ") = true -> 96%N ∈ line)
             (split (strip kept) NL) ->
      exists l, validate_response response = Ok (VList l)).
Proof.
  intros Hone Hi rest kept.
  pose proof (occurrences_1 _ _ _ Hone Hi) as Hnone.
  change (length (lit "~~~")) with 3 in Hnone. specialize (Hnone ltac:(done)).
  destruct (fenced_open_as_closed response i Hi Hnone) as [Hopen Hclosed].
  fold rest kept in Hopen, Hclosed.
  split; [unfold rfind, rest; by rewrite (find_None_rfind _ _ Hnone)|].
  split; [done|].
  split; [unfold validate_response; by rewrite Hopen, Hclosed|].
  intros Hall. unfold validate_response. rewrite Hopen. cbn [mbind res_bind].
  destruct (scan_lines_ok _ Hall) as [l ->]. by exists l.
Qed.

Lemma validate_response_open_fence_witness :
  validate_response (lit " ~~~" ++ NL ++ lit "File: `a.py`" ++ NL ++ lit "x = 1" ++ NL)
  = validate_response (lit "~~~" ++ NL ++ lit "File: `a.py`" ++ NL ++ lit "x = " ++ lit "~~~").
Proof.
  apply (validate_response_open_fence
           (lit " ~~~" ++ NL ++ lit "File: `a.py`" ++ NL ++ lit "x = 1" ++ NL) 0).
  - vm_compute. reflexivity.
  - vm_compute. reflexivity.
Defined.

(** * The claims about paths and persistence *)

Section Paths.

Implicit Types (s project_dir project_name : str) (fs : filesystem).

Lemma replace_single s (a b : char) :
  replace s [a] [b] = (fun c => if (c =? a)%N then b else c) <$> s.
Proof.
  unfold replace. induction s as [|c s IH]; [done|].
  cbn [replace_from startswith fmap list_fmap length Nat.sub].
  replace (startswith s []) with true by (by destruct s).
  rewrite andb_true_r.
  destruct (c =? a)%N; cbn [app]; by rewrite IH.
Qed.

Lemma slug_hyphenate project_name :
  replace (lower project_name) (lit " ") (lit "-") = hyphenate <$> lower project_name.
Proof. change (lit " ") with [32%N]. change (lit "-") with [45%N]. apply replace_single. Qed.

Lemma hyphenate_no_space s : 32%N ∉ hyphenate <$> s.
Proof.
  intros (c & Hc & _)%list_elem_of_fmap. unfold hyphenate in Hc.
  by destruct (N.eqb_spec c 32).
Qed.

(** Below 256 the case table is [lower_char]: checked on the 256 code
    points. *)
Lemma to_lower_full_below_256 :
  forallb (fun n => bool_decide (to_lower_full (N.of_nat n) = [lower_char (N.of_nat n)]))
          (seq 0 256) = true.
Proof. vm_compute. reflexivity. Qed.

Lemma to_lower_full_latin1 (c : char) :
  (c < 256)%N -> to_lower_full c = [lower_char c].
Proof.
  intros Hc. pose proof to_lower_full_below_256 as Hall.
  rewrite forallb_forall in Hall. specialize (Hall (N.to_nat c)).
  rewrite N2Nat.id in Hall. apply (proj1 (bool_decide_eq_true _)), Hall, in_seq. lia.
Qed.

Lemma lower_from_latin1 (before s : str) :
  latin1 s -> lower_from before s = lower_char <$> s.
Proof.
  intros Hs. revert before. induction Hs as [|c s Hc Hs IH]; intros before; [done|].
  cbn [lower_from fmap list_fmap].
  assert ((c =? 931)%N = false) as -> by (apply N.eqb_neq; lia).
  rewrite to_lower_full_latin1 by done. cbn [app]. f_equal. apply IH.
Qed.

Lemma lower_latin1 (s : str) : latin1 s -> lower s = lower_char <$> s.
Proof. apply lower_from_latin1. Qed.

(** C7: the project path is the projects root, a slash, and the project
    name in lower case with every space replaced by a hyphen, for every
    project name; the result holds no space outside the root; for a name
    within Basic Latin and Latin-1 the lower case is spelled out: every
    capital letter moves up by 32, a space becomes a hyphen, and nothing
    else changes; and the path of [My Project] is [<root>/my-project]. *)
Theorem get_project_path_slug project_dir project_name :
  get_project_path project_dir project_name
  = project_dir ++ lit "/" ++ (hyphenate <$> lower project_name)
  /\ (32%N ∉ hyphenate <$> lower project_name)
  /\ (latin1 project_name ->
      get_project_path project_dir project_name
      = project_dir ++ lit "/" ++ (hyphenate <$> (lower_char <$> project_name)))
  /\ get_project_path project_dir (lit "My Project") = project_dir ++ lit "/my-project".
Proof.
  split; [|split; [|split]].
  - unfold get_project_path. by rewrite slug_hyphenate.
  - apply hyphenate_no_space.
  - intros Hl. unfold get_project_path. by rewrite slug_hyphenate, lower_latin1.
  - vm_compute. reflexivity.
Qed.

Lemma get_project_path_slug_witness :
  get_project_path (lit "/srv/projects") (lit "CAF" ++ [201%N] ++ lit " du Monde")
  = lit "/srv/projects/caf" ++ [233%N] ++ lit "-du-monde".
Proof.
  apply get_project_path_slug.
  apply Forall_forall. apply Forall_forall. vm_compute. repeat constructor.
Defined.

(** The directory returned is that of the file written last. *)
Lemma save_code_to_project_last project_dir (response : list CodeFile) (f : CodeFile)
    project_name fs :
  let file_path :=
    project_dir ++ lit "/" ++ replace (lower project_name) (lit " ") (lit "-")
      ++ lit "/" ++ file f in
  fst (save_code_to_project project_dir (response ++ [f]) project_name fs)
  = Some (slice_to file_path (rfind file_path (lit "/"))).
Proof.
  unfold save_code_to_project. rewrite foldl_snoc.
  by destruct (foldl _ _ response).
Qed.

(** C5: with the projects root [/root] and the project name [My Project],
    saving [a/b.py] with content [x] and then [c.py] with content [y]
    writes [/root/my-project/a/b.py] and [/root/my-project/c.py] with these
    contents, makes the two directories, and returns [/root/my-project], the
    directory of the file written last, not [/root/my-project/a]. *)
Theorem save_code_to_project_example fs :
  let saved :=
    save_code_to_project (lit "/root")
      [ {| file := lit "a/b.py"; code := lit "x" |};
        {| file := lit "c.py"; code := lit "y" |} ]
      (lit "My Project") fs in
  fst saved = Some (lit "/root/my-project")
  /\ fst saved <> Some (lit "/root/my-project/a")
  /\ contents (snd saved) !! lit "/root/my-project/a/b.py" = Some (lit "x")
  /\ contents (snd saved) !! lit "/root/my-project/c.py" = Some (lit "y")
  /\ lit "/root/my-project/a" ∈ dirs (snd saved)
  /\ lit "/root/my-project" ∈ dirs (snd saved).
Proof.
  intros saved.
  assert (saved =
    (Some (lit "/root/my-project"),
     write_file (lit "/root/my-project/c.py") (lit "y")
       (makedirs (lit "/root/my-project")
          (write_file (lit "/root/my-project/a/b.py") (lit "x")
             (makedirs (lit "/root/my-project/a") fs))))) as ->.
  { assert (lit "/root" ++ lit "/"
              ++ replace (lower (lit "My Project")) (lit " ") (lit "-")
              ++ lit "/" ++ lit "a/b.py" = lit "/root/my-project/a/b.py") as Hp1
      by (vm_compute; reflexivity).
    assert (lit "/root" ++ lit "/"
              ++ replace (lower (lit "My Project")) (lit " ") (lit "-")
              ++ lit "/" ++ lit "c.py" = lit "/root/my-project/c.py") as Hp2
      by (vm_compute; reflexivity).
    assert (slice_to (lit "/root/my-project/a/b.py")
              (rfind (lit "/root/my-project/a/b.py") (lit "/"))
            = lit "/root/my-project/a") as Hd1 by (vm_compute; reflexivity).
    assert (slice_to (lit "/root/my-project/c.py")
              (rfind (lit "/root/my-project/c.py") (lit "/"))
            = lit "/root/my-project") as Hd2 by (vm_compute; reflexivity).
    subst saved. unfold save_code_to_project. cbn [foldl file code].
    by rewrite Hp1, Hp2, Hd1, Hd2. }
  cbn [fst snd write_file makedirs contents dirs].
  split; [done|]. split; [by vm_compute|].
  split; [|split; [|split]].
  - rewrite lookup_insert_ne by (by vm_compute). apply lookup_insert_eq.
  - apply lookup_insert_eq.
  - apply elem_of_union_l, elem_of_union_r, elem_of_list_to_set.
    apply (proj1 (bool_decide_eq_true _)). vm_compute. reflexivity.
  - apply elem_of_union_r, elem_of_list_to_set.
    apply (proj1 (bool_decide_eq_true _)). vm_compute. reflexivity.
Qed.

End Paths.

(** * The claims about state emission and retry *)

Section Emission.

Context `{Collaborators}.

Implicit Types (w : world) (σ : Store) (project_name : str)
  (code_set : list CodeFile) (s : StateSnapshot BrowserSession).

Lemma emulate_code_writing_nil project_name w :
  emulate_code_writing [] project_name w = (Ok tt, w).
Proof. reflexivity. Qed.

Lemma emulate_code_writing_cons (f : CodeFile) code_set project_name w s :
  get_latest (states w) project_name = Some s ->
  emulate_code_writing (f :: code_set) project_name w
  = emulate_code_writing code_set project_name
      {| llm_calls := llm_calls w;
         states := add_to_current (states w) project_name
                     (written (browser_session s) (file f) (code f)) |}.
Proof.
  intros Hlast. unfold emulate_code_writing at 1. cbn [for_each].
  unfold mbind, M_bind, get_latest_state. cbn beta iota. rewrite Hlast.
  reflexivity.
Qed.

(** For a store that gives back as latest the snapshot appended last, the
    run is a sequence of appends, one per file, each with the browser
    sub-state of the snapshot that was the latest at the start. *)
Lemma emulate_code_writing_run code_set project_name w s :
  (forall σ s', get_latest (add_to_current σ project_name s') project_name = Some s') ->
  get_latest (states w) project_name = Some s ->
  emulate_code_writing code_set project_name w
  = (Ok tt,
     {| llm_calls := llm_calls w;
        states :=
          foldl (fun σ s' => add_to_current σ project_name s') (states w)
            ((fun f => written (browser_session s) (file f) (code f)) <$> code_set) |}).
Proof.
  intros Hlaw. revert w s. induction code_set as [|f code_set IH]; intros w s Hlast.
  - rewrite emulate_code_writing_nil. by destruct w.
  - rewrite (emulate_code_writing_cons _ _ _ _ s) by done.
    rewrite (IH _ (written (browser_session s) (file f) (code f)))
      by (cbn [states]; apply Hlaw).
    reflexivity.
Qed.

(** C4: event emission.  For a store that gives back as latest the snapshot
    appended last and that holds a latest snapshot [s0] for the project,
    [emulate_code_writing] on [N] files succeeds and its effect on the world
    is exactly [N] appends to the store of the project, in the order of the
    files; the [i]-th appended snapshot has the code of the [i]-th file as
    the output of its terminal session and the browser session of [s0]. *)
Theorem emulate_code_writing_appends code_set project_name w s0 :
  (forall σ s, get_latest (add_to_current σ project_name s) project_name = Some s) ->
  get_latest (states w) project_name = Some s0 ->
  exists appended,
    emulate_code_writing code_set project_name w
    = (Ok tt,
       {| llm_calls := llm_calls w;
          states := foldl (fun σ s => add_to_current σ project_name s)
                      (states w) appended |})
    /\ length appended = length code_set
    /\ (forall i f, code_set !! i = Some f ->
          exists s, appended !! i = Some s
                    /\ output (terminal_session s) = code f
                    /\ browser_session s = browser_session s0).
Proof.
  intros Hlaw Hlast.
  exists ((fun f => written (browser_session s0) (file f) (code f)) <$> code_set).
  split; [by apply emulate_code_writing_run|].
  split; [by rewrite length_fmap|].
  intros i f Hi. eexists. split; [by rewrite list_lookup_fmap, Hi|done].
Qed.

(** A first answer that parses to a falsy value: the retry passes three
    arguments to a method of four, and nothing is retried. *)
Lemma execute_falsy (depth : nat) (plan context : str) (results : SearchResults)
    project_name w (v : value) :
  validate_response (inference (llm_calls w) (template plan context results)) = Ok v ->
  truthy v = false ->
  execute (S depth) plan context results (Some project_name) w
  = (Raise TypeError, {| llm_calls := S (llm_calls w); states := states w |}).
Proof.
  intros Hv Hfalsy. cbn [execute].
  unfold mbind, M_bind, render, mret, M_ret, llm_inference, lift. cbn beta iota.
  cbn [llm_calls states]. rewrite Hv, Hfalsy. cbn [negb]. by destruct depth.
Qed.

(** An answer on which the parser raises: [execute] raises the same. *)
Lemma execute_raise (depth : nat) (plan context : str) (results : SearchResults)
    project_name w (e : exn) :
  validate_response (inference (llm_calls w) (template plan context results)) = Raise e ->
  execute (S depth) plan context results (Some project_name) w
  = (Raise e, {| llm_calls := S (llm_calls w); states := states w |}).
Proof.
  intros Hv. cbn [execute].
  unfold mbind, M_bind, render, mret, M_ret, llm_inference, lift. cbn beta iota.
  cbn [llm_calls states]. by rewrite Hv.
Qed.

End Emission.

Lemma emulate_code_writing_appends_witness :
  exists appended,
    emulate_code_writing (H := scripted []) demo_files (lit "demo") demo_world
    = (Ok tt,
       {| llm_calls := 0;
          states := foldl (fun σ s => add_to_current σ (lit "demo") s)
                      (states demo_world) appended |})
    /\ length appended = 2
    /\ (forall i f,
          demo_files !! i = Some f ->
          exists s, appended !! i = Some s
                    /\ output (terminal_session s) = code f
                    /\ browser_session s = lit "https://example.org").
Proof.
  apply (emulate_code_writing_appends (H := scripted [])
           demo_files (lit "demo") demo_world demo_snapshot).
  - intros σ s. cbn [get_latest add_to_current scripted].
    rewrite lookup_insert_eq. apply last_snoc.
  - reflexivity.
Defined.

(** The run of the witness, evaluated: the store of [demo] ends with the
    two snapshots, the terminal showing each file in turn. *)
Example emulate_code_writing_demo :
  (snd (emulate_code_writing (H := scripted []) demo_files (lit "demo") demo_world)).(states)
    !! lit "demo"
  = Some [ demo_snapshot;
           {| browser_session := lit "https://example.org";
              internal_monologue := writing_code;
              terminal_session :=
                {| title := editing ++ lit "a.py"; command := lit "vim a.py";
                   output := lit "x" |} |};
           {| browser_session := lit "https://example.org";
              internal_monologue := writing_code;
              terminal_session :=
                {| title := editing ++ lit "b.py"; command := lit "vim b.py";
                   output := lit "y" |} |} ].
Proof. vm_compute. reflexivity. Qed.

(** C2 fails on the code.  The client answers twice with an empty envelope,
    which parses to the empty list, and then with a well-formed answer; the
    first retry calls [execute] with three arguments, so [execute] raises
    [TypeError] after one call to the client instead of returning the parse
    of the third answer after three calls. *)
Theorem execute_retry_raises :
  let empty := lit "~~~" ++ NL ++ lit "~~~" in
  let good := lit "~~~" ++ NL ++ lit "File: `a.py`:" ++ NL ++ lit "```" ++ NL
                ++ lit "x" ++ NL ++ lit "```" ++ NL ++ lit "~~~" in
  validate_response empty = Ok (VList [])
  /\ validate_response good = Ok (VList [ {| file := lit "a.py"; code := lit "x" |} ])
  /\ forall depth σ,
       execute (H := scripted [empty; empty; good]) (S depth)
         (lit "plan") (lit "context") tt (Some (lit "demo"))
         {| llm_calls := 0; states := σ |}
       = (Raise TypeError, {| llm_calls := 1; states := σ |}).
Proof.
  intros empty good. split; [by vm_compute|]. split; [by vm_compute|].
  intros depth σ.
  rewrite (execute_falsy (H := scripted [empty; empty; good]) _ _ _ _ _ _ (VList []));
    [done| |done].
  by vm_compute.
Qed.

(** C10: [validate_response] never returns [False].  Whatever it returns
    is a list, so the only falsy value it returns is the empty list; on a
    response without [~~~] it raises [IndexError] and returns nothing; and
    when it raises, [execute] raises the same exception after its one call
    to the client, so the retry test only ever sees a list. *)
Theorem validate_response_never_false :
  (forall response v, validate_response response = Ok v -> exists l, v = VList l)
  /\ (forall response v,
        validate_response response = Ok v -> truthy v = false -> v = VList [])
  /\ (forall response,
        find response (lit "~~~") = None ->
        validate_response response = Raise IndexError)
  /\ (forall (H : Collaborators) depth plan context results project_name w e,
        validate_response (inference (llm_calls w) (template plan context results))
        = Raise e ->
        execute (S depth) plan context results (Some project_name) w
        = (Raise e, {| llm_calls := S (llm_calls w); states := states w |})).
Proof.
  assert (forall response v, validate_response response = Ok v -> exists l, v = VList l)
    as Hlist.
  { intros response v. unfold validate_response.
    destruct (fenced response) as [body|]; [|done]. cbn [mbind res_bind].
    destruct (scan_lines body) as [l|]; [|done]. cbn [mbind res_bind].
    intros [= <-]. by exists l. }
  split; [done|]. split; [|split].
  - intros response v Hv Hfalsy. destruct (Hlist _ _ Hv) as [l ->].
    by destruct l.
  - intros response Hnone. unfold validate_response.
    by rewrite fenced_no_fence.
  - intros. by apply execute_raise.
Qed.

Lemma validate_response_never_false_witness :
  (exists l, VList [] = VList l)
  /\ validate_response (lit "I have no code for you.") = Raise IndexError.
Proof.
  destruct validate_response_never_false as (Hlist & _ & Hraise & _).
  split.
  - apply (Hlist (lit "~~~" ++ NL ++ lit "nothing" ++ NL ++ lit "~~~")).
    vm_compute. reflexivity.
  - apply Hraise. vm_compute. reflexivity.
Defined.

(** * Further properties of the parser *)

Section Trimming.

Implicit Types (s t ws : str) (c x : char).

Lemma strip_last s u z : strip s = u ++ [z] -> isspace z = false.
Proof.
  unfold strip, rstrip. intros Hs. apply (f_equal (@rev N)) in Hs.
  rewrite rev_involutive, rev_app_distr in Hs. simpl in Hs.
  by eapply lstrip_head.
Qed.

Lemma strip_idem s : strip (strip s) = strip s.
Proof.
  destruct (strip s) as [|c t] eqn:Hs; [done|].
  destruct (exists_last (l := c :: t)) as (u & z & Hu); [done|].
  eapply (strip_id _ t u c z); [done|done| |].
  - by apply (strip_head s c t).
  - apply (strip_last s u z). by rewrite Hs.
Qed.

Lemma strip_elem x s : x ∈ strip s -> x ∈ s.
Proof.
  unfold strip. intros Hx.
  destruct (rstrip_prefix (lstrip s)) as [k Hk].
  destruct (lstrip_suffix s) as [k' Hk'].
  rewrite Hk', Hk, !elem_of_app. auto.
Qed.

Lemma lstrip_spaces ws s :
  forallb isspace ws = true -> lstrip (ws ++ s) = lstrip s.
Proof.
  induction ws as [|c ws IH]; [done|]. cbn [forallb app].
  intros [Hc Hws]%andb_true_iff. rewrite lstrip_space by done. by apply IH.
Qed.

Lemma strip_snoc_spaces s ws :
  forallb isspace ws = true -> strip (s ++ ws) = strip s.
Proof.
  unfold strip. induction ws as [|c ws IH] using rev_ind; intros Hws.
  - by rewrite app_nil_r.
  - rewrite forallb_app in Hws. apply andb_true_iff in Hws as [Hws Hc].
    cbn in Hc. rewrite andb_true_r in Hc.
    rewrite (assoc_L (++)), lstrip_snoc_space by done. by apply IH.
Qed.

Lemma strip_spaces ws1 s ws2 :
  forallb isspace ws1 = true -> forallb isspace ws2 = true ->
  strip (ws1 ++ s ++ ws2) = strip s.
Proof.
  intros H1 H2. rewrite (assoc_L (++)), strip_snoc_spaces by done.
  unfold strip. by rewrite lstrip_spaces.
Qed.

End Trimming.

Section Pieces.

Implicit Types (s p : str) (c x : char) (ls : list str).

Lemma split_on_elem c s p x : p ∈ split_on c s -> x ∈ p -> x ∈ s /\ x <> c.
Proof.
  revert p. induction s as [|y s IH]; intros p; cbn [split_on].
  - intros ->%list_elem_of_singleton Hx. by apply elem_of_nil in Hx.
  - destruct (N.eqb_spec y c) as [->|Hy].
    + intros [->|Hp]%elem_of_cons Hx; [by apply elem_of_nil in Hx|].
      destruct (IH p Hp Hx). split; [by apply elem_of_cons; right|done].
    + pose proof (split_on_nonempty c s) as Hne.
      destruct (split_on c s) as [|l ls]; [done|].
      intros [->|Hp]%elem_of_cons Hx.
      * apply elem_of_cons in Hx as [->|Hx]; [split; [apply elem_of_cons; by left|done]|].
        destruct (IH l) as [? ?]; [apply elem_of_cons; by left|done|].
        split; [by apply elem_of_cons; right|done].
      * destruct (IH p) as [? ?]; [apply elem_of_cons; by right|done|].
        split; [by apply elem_of_cons; right|done].
Qed.

Lemma split_on_join c ls :
  ls <> [] -> Forall (fun l => c ∉ l) ls -> split_on c (join [c] ls) = ls.
Proof.
  intros Hne Hall. induction Hall as [|l ls Hl Hall IH]; [done|].
  destruct ls as [|l2 ls].
  - by apply split_on_free.
  - rewrite join_cons by done. change ([c] ++ ?t) with (c :: t).
    rewrite split_on_app, split_on_free, IH by done. done.
Qed.

End Pieces.

Section ParserFacts.

Implicit Types (response body line m : str) (st : scan) (lines : list str).

Lemma scan_lines_all body : scan_lines body = scan_all (split body NL).
Proof. reflexivity. Qed.

Lemma fenced_raise response e :
  fenced response = Raise e <-> e = IndexError /\ find (strip response) (lit "~~~") = None.
Proof.
  unfold fenced. rewrite split_n_S.
  destruct (find (strip response) (lit "~~~")) as [i|]; cbn; split.
  - done.
  - by intros [_ ?].
  - by intros [= <-].
  - by intros [-> _].
Qed.

Lemma scan_from_raise lines st e :
  foldM scan_line st lines ≫= (fun st' => Ok (flush st')) = Raise e -> e = IndexError.
Proof.
  revert st. induction lines as [|l ls IH]; intros st; [done|]. cbn [foldM].
  destruct (scan_line st l) as [st'|e'] eqn:El; cbn [mbind res_bind].
  - apply IH.
  - intros [= <-]. by eapply scan_line_raise.
Qed.

Lemma scan_all_raise lines e :
  scan_all lines = Raise e <->
  e = IndexError
  /\ Exists (fun line => startswith line (lit "File: ") = true /\ 96%N ∉ line) lines.
Proof.
  split.
  - intros Hr. split; [by apply (scan_from_raise lines scan0)|].
    destruct (decide (Exists (fun line => startswith line (lit "File: ") = true
                                          /\ 96%N ∉ line) lines)) as [|Hno]; [done|].
    exfalso. apply not_Exists_Forall in Hno; [|intros ?; apply _].
    assert (exists l, scan_all lines = Ok l) as [l Hl]; [|congruence].
    clear Hr. unfold scan_all. generalize scan0 as st.
    induction Hno as [|l ls Hl Hno IH]; intros st; cbn [foldM]; [by eexists|].
    destruct (scan_line_ok st l) as [st' ->].
    { intros Hs. destruct (decide (96%N ∈ l)); [done|]. destruct Hl. by split. }
    cbn [mbind res_bind]. apply IH.
  - intros [-> Hex]. unfold scan_all. generalize scan0 as st.
    induction Hex as [l ls [Hs Hb]|l ls Hex IH]; intros st; cbn [foldM].
    + by rewrite scan_line_no_backtick.
    + destruct (scan_line st l) as [st'|e] eqn:El; cbn [mbind res_bind]; [apply IH|].
      by apply scan_line_raise in El as ->.
Qed.

Lemma fenced_envelope m : fenced (lit "~~~" ++ m ++ lit "~~~") = Ok (strip m).
Proof.
  unfold fenced.
  rewrite (strip_id _ (lit "~~" ++ m ++ lit "~~~") (lit "~~~" ++ m ++ lit "~~") 126 126);
    [|done| |done|done].
  2:{ change (lit "~~~") with (lit "~~" ++ [126%N]) at 2.
      by rewrite <- !(assoc_L (++)). }
  rewrite split_n_S, find_startswith by apply startswith_app.
  change (length (lit "~~~")) with 3.
  change (drop (0 + 3) (lit "~~~" ++ ?t)) with t.
  cbn [split_n item lookup list_lookup mbind res_bind].
  unfold rfind. rewrite rfind_nat_app by done.
  unfold slice_to. rewrite (proj2 (Z.ltb_ge _ _)) by lia.
  by rewrite Nat2Z.id, take_app_length.
Qed.

Lemma fence_not_header line :
  startswith line (lit "```") = true -> startswith line (lit "File: ") = false.
Proof.
  destruct line as [|c line]; [done|]. cbn [startswith lit].
  intros [Hc _]%andb_true_iff. apply N.eqb_eq in Hc as ->. reflexivity.
Qed.

Lemma same_scan_refl st : same_scan st st.
Proof. done. Qed.

Lemma same_scan_flush st1 st2 : same_scan st1 st2 -> flush st1 = flush st2.
Proof. intros (Hr & Hf & Hc). unfold flush. by rewrite Hr, Hf, Hc. Qed.

Lemma same_scan_line st1 st2 line :
  same_scan st1 st2 ->
  match scan_line st1 line, scan_line st2 line with
  | Ok st1', Ok st2' => same_scan st1' st2'
  | Raise e1, Raise e2 => e1 = e2
  | _, _ => False
  end.
Proof.
  intros Hs. pose proof (same_scan_flush _ _ Hs) as Hfl.
  destruct Hs as (Hr & Hf & Hc). unfold scan_line.
  destruct (startswith line (lit "File: ")).
  - destruct (file_name line); cbn; [|done]. by rewrite Hfl.
  - destruct (startswith line (lit "```")); cbn; unfold same_scan; cbn;
      by rewrite Hr, Hf, Hc.
Qed.

Lemma same_scan_fold lines st1 st2 :
  same_scan st1 st2 ->
  foldM scan_line st1 lines ≫= (fun st => Ok (flush st))
  = foldM scan_line st2 lines ≫= (fun st => Ok (flush st)).
Proof.
  revert st1 st2. induction lines as [|l ls IH]; intros st1 st2 Hs; cbn [foldM].
  - cbn. by rewrite (same_scan_flush _ _ Hs).
  - pose proof (same_scan_line st1 st2 l Hs) as Hl.
    destruct (scan_line st1 l), (scan_line st2 l); cbn [mbind res_bind];
      try done; [by apply IH | by subst].
Qed.

Lemma scan_fence_line st line :
  not_fence line = false -> exists st', scan_line st line = Ok st' /\ same_scan st' st.
Proof.
  unfold not_fence. intros Hf%negb_false_iff. unfold scan_line.
  rewrite (fence_not_header _ Hf), Hf. by eexists.
Qed.

Lemma scan_line_header st line :
  startswith line (lit "File: ") = true ->
  scan_line st line
  = name ← file_name line;
    Ok {| result := flush st; current_file := Some name;
          current_code := []; code_block := false |}.
Proof. intros Hh. unfold scan_line. by rewrite Hh. Qed.

Lemma plain_name_intro (n : str) :
  n <> [] -> 96%N ∉ n -> 10%N ∉ n -> strip n = n -> plain_name n = true.
Proof.
  intros Hne Hb Hn Hs. unfold plain_name. rewrite !andb_true_iff.
  split; [split|]; [by destruct n| |by apply bool_decide_eq_true].
  apply forallb_forall. intros c Hc%list_elem_of_In.
  apply andb_true_iff. split; apply negb_true_iff, N.eqb_neq; by intros ->.
Qed.

Lemma flush_tidy st : tidy st -> Forall (fun f => plain f = true) (flush st).
Proof.
  intros (Hres & Hcur & Hcode). unfold flush.
  destruct (current_file st) as [[|c n]|] eqn:Hf; try done.
  destruct (current_code st) as [|l ls] eqn:Hc; [done|].
  apply Forall_app. split; [done|]. apply Forall_singleton.
  destruct (Hcur _ eq_refl) as (Hb & Hn & Hs).
  unfold plain. cbn [file code]. rewrite plain_name_intro by done. cbn [andb].
  unfold plain_code, NL. rewrite split_single, split_on_join.
  - apply forallb_forall. intros x Hx%list_elem_of_In.
    by apply (proj1 (Forall_forall _ _) Hcode) in Hx as [_ ?].
  - done.
  - eapply Forall_impl; [exact Hcode|]. by intros x [? _].
Qed.

Lemma scan_line_tidy st line st' :
  tidy st -> 10%N ∉ line -> scan_line st line = Ok st' -> tidy st'.
Proof.
  intros Ht Hn. pose proof (flush_tidy st Ht) as Hfl.
  destruct Ht as (Hres & Hcur & Hcode). unfold scan_line.
  destruct (startswith line (lit "File: ")) eqn:Hh.
  - unfold file_name, item. change (lit "`") with [96%N]. rewrite split_single.
    destruct (split_on 96 line !! 1) as [p|] eqn:Hp; cbn; [|done].
    intros [= <-]. split; [done|]. split; [|by constructor]. cbn.
    intros n [= <-]. apply list_elem_of_lookup_2 in Hp.
    split; [|split; [|apply strip_idem]].
    + intros Hx%strip_elem. by destruct (split_on_elem _ _ _ _ Hp Hx).
    + intros Hx%strip_elem. destruct (split_on_elem _ _ _ _ Hp Hx). done.
  - destruct (startswith line (lit "```")) eqn:Hf; intros [= <-]; [done|].
    split; [done|]. split; [done|]. cbn. apply Forall_app. split; [done|].
    apply Forall_singleton. split; [done|]. unfold plain_line. by rewrite Hh, Hf.
Qed.

Lemma scan_tidy lines st st' :
  tidy st -> Forall (fun l => 10%N ∉ l) lines ->
  foldM scan_line st lines = Ok st' -> tidy st'.
Proof.
  intros Ht Hall. revert st Ht. induction Hall as [|l ls Hl Hall IH]; intros st Ht.
  - by intros [= <-].
  - cbn [foldM]. destruct (scan_line st l) as [st1|] eqn:El; cbn [mbind res_bind]; [|done].
    apply IH. by eapply scan_line_tidy.
Qed.

Lemma scan_lines_plain body (l : list CodeFile) :
  scan_lines body = Ok l -> Forall (fun f => plain f = true) l.
Proof.
  unfold scan_lines. destruct (foldM scan_line scan0 (split body NL)) as [st|] eqn:Hrun;
    cbn [mbind res_bind]; [|done].
  intros [= <-]. apply flush_tidy. eapply scan_tidy; [| |exact Hrun].
  - split; [done|]. split; [done|]. done.
  - unfold NL. rewrite split_single. apply Forall_forall. intros p Hp Hx.
    by destruct (split_on_elem _ _ _ _ Hp Hx).
Qed.

End ParserFacts.

(** X1: [validate_response] raises exactly when the trimmed response holds
    no [~~~], or when one of the scanned lines starts with [File: ] and
    holds no backtick; and what it raises is always [IndexError]. *)
Theorem validate_response_raises (response : str) (e : exn) :
  validate_response response = Raise e <->
  e = IndexError
  /\ (find (strip response) (lit "~~~") = None
      \/ exists body,
           fenced response = Ok body
           /\ Exists (fun line => startswith line (lit "File: ") = true /\ 96%N ∉ line)
                     (split body NL)).
Proof.
  unfold validate_response.
  destruct (fenced response) as [body|e'] eqn:Hf; cbn [mbind res_bind].
  - rewrite scan_lines_all.
    destruct (scan_all (split body NL)) as [l|e'] eqn:Hs; cbn [mbind res_bind].
    + split; [done|]. intros [-> [Hnone|(body' & [= <-] & Hex)]].
      * assert (fenced response = Raise IndexError) by (by apply fenced_raise).
        congruence.
      * assert (scan_all (split body NL) = Raise IndexError)
          by (by apply scan_all_raise). congruence.
    + apply scan_all_raise in Hs as [-> Hex]. split.
      * intros [= <-]. split; [done|]. right. by exists body.
      * by intros [-> _].
  - apply fenced_raise in Hf as [-> Hnone]. split.
    + intros [= <-]. split; [done|]. by left.
    + by intros [-> _].
Qed.

Lemma validate_response_raises_witness :
  validate_response (lit "~~~" ++ NL ++ lit "File: main.py" ++ NL ++ lit "~~~")
  = Raise IndexError.
Proof.
  apply validate_response_raises. split; [reflexivity|]. right.
  exists (lit "File: main.py"). split; [vm_compute; reflexivity|].
  apply Exists_cons_hd. split; [vm_compute; reflexivity|].
  apply (proj1 (bool_decide_eq_true _)). vm_compute. reflexivity.
Defined.

(** X2: what stands before the opening fence and after the closing fence
    does not matter: the result is that of the envelope alone. *)
Theorem validate_response_envelope (response : str) (i j : nat) :
  find (strip response) (lit "~~~") = Some i ->
  rfind (drop (i + 3) (strip response)) (lit "~~~") = Z.of_nat j ->
  validate_response response
  = validate_response (lit "~~~" ++ take j (drop (i + 3) (strip response)) ++ lit "~~~").
Proof.
  intros Hi Hj%rfind_nonneg. unfold validate_response.
  by rewrite (fenced_closed response i j Hi Hj), fenced_envelope.
Qed.

Lemma validate_response_envelope_witness :
  validate_response
    (lit "Here you are: ~~~" ++ NL ++ lit "File: `a.py`:" ++ NL ++ lit "x" ++ NL
       ++ lit "~~~ Anything else?")
  = validate_response (lit "~~~" ++ NL ++ lit "File: `a.py`:" ++ NL ++ lit "x" ++ NL ++ lit "~~~").
Proof.
  apply (validate_response_envelope
           (lit "Here you are: ~~~" ++ NL ++ lit "File: `a.py`:" ++ NL ++ lit "x" ++ NL
              ++ lit "~~~ Anything else?") 14 17); vm_compute; reflexivity.
Defined.

(** X3: white space around the response does not matter. *)
Theorem validate_response_spaces (ws1 response ws2 : str) :
  forallb isspace ws1 = true -> forallb isspace ws2 = true ->
  validate_response (ws1 ++ response ++ ws2) = validate_response response.
Proof.
  intros H1 H2. unfold validate_response, fenced. by rewrite strip_spaces.
Qed.

Lemma validate_response_spaces_witness :
  validate_response
    (NL ++ lit "  " ++ (lit "~~~" ++ NL ++ lit "File: `a.py`:" ++ NL ++ lit "x" ++ NL ++ lit "~~~")
       ++ lit " " ++ NL)
  = validate_response (lit "~~~" ++ NL ++ lit "File: `a.py`:" ++ NL ++ lit "x" ++ NL ++ lit "~~~").
Proof.
  apply (validate_response_spaces (NL ++ lit "  ") _ (lit " " ++ NL)); reflexivity.
Defined.

(** X4: the fences of code blocks are only dropped: [code_block] is never
    read, and the scan of the lines is the scan of the lines that are not
    fences.  So text between a header and its block, or after the block,
    becomes code of the file like the lines of the block. *)
Theorem scan_ignores_fences (lines : list str) :
  scan_all (filter (fun line => not_fence line = true) lines) = scan_all lines.
Proof.
  unfold scan_all. generalize scan0 as st.
  induction lines as [|l ls IH]; intros st; [done|].
  destruct (not_fence l) eqn:Hl.
  - rewrite filter_cons_True by done. cbn [foldM].
    destruct (scan_line st l); cbn [mbind res_bind]; [apply IH|done].
  - rewrite filter_cons_False by (by rewrite Hl). cbn [foldM].
    destruct (scan_fence_line st l Hl) as (st' & -> & Hsame). cbn [mbind res_bind].
    rewrite IH. symmetry. by apply same_scan_fold.
Qed.

(** X5: inside the envelope, the lines before the first header are
    dropped. *)
Theorem scan_drops_prelude (prelude : list str) (header : str) (lines : list str) :
  Forall (fun line => startswith line (lit "File: ") = false) prelude ->
  startswith header (lit "File: ") = true ->
  scan_all (prelude ++ header :: lines) = scan_all (header :: lines).
Proof.
  intros Hpre Hh. unfold scan_all. rewrite foldM_app.
  destruct (scan_no_header prelude scan0 Hpre) as (st & -> & Hres & Hcur).
  cbn [mbind res_bind foldM]. rewrite !scan_line_header by done.
  assert (flush st = flush scan0) as ->; [|done].
  unfold flush. by rewrite Hcur, Hres.
Qed.

Lemma scan_drops_prelude_witness :
  scan_all [lit "Here is the code."; []; lit "File: `a.py`:"; lit "x"]
  = scan_all [lit "File: `a.py`:"; lit "x"].
Proof.
  apply (scan_drops_prelude [lit "Here is the code."; []]).
  - repeat constructor.
  - reflexivity.
Defined.

(** X6: every file [validate_response] returns has a name that is not
    empty, is trimmed and holds no backtick and no line feed, and a code of
    which no line starts with [File: ] or with three backticks. *)
Theorem validate_response_plain (response : str) (l : list CodeFile) :
  validate_response response = Ok (VList l) ->
  Forall (fun f =>
            file f <> [] /\ (96%N ∉ file f) /\ (10%N ∉ file f)
            /\ strip (file f) = file f
            /\ Forall (fun line => startswith line (lit "File: ") = false
                                   /\ startswith line (lit "```") = false)
                      (split (code f) NL)) l.
Proof.
  unfold validate_response.
  destruct (fenced response) as [body|]; cbn [mbind res_bind]; [|done].
  destruct (scan_lines body) as [l'|] eqn:Hs; cbn [mbind res_bind]; [|done].
  intros [= <-]. apply scan_lines_plain in Hs.
  eapply Forall_impl; [exact Hs|]. intros f [Hn Hc]%andb_true_iff.
  apply plain_name_spec in Hn as (Hne & Hb & Hnl & Hst). repeat split; try done.
  apply Forall_forall. intros line Hin%list_elem_of_In.
  apply (proj1 (forallb_forall _ _) Hc) in Hin.
  apply andb_true_iff in Hin as [Hh Hf]. by apply negb_true_iff in Hh, Hf.
Qed.

Lemma validate_response_plain_witness :
  Forall (fun f =>
            file f <> [] /\ (96%N ∉ file f) /\ (10%N ∉ file f)
            /\ strip (file f) = file f
            /\ Forall (fun line => startswith line (lit "File: ") = false
                                   /\ startswith line (lit "```") = false)
                      (split (code f) NL))
         [ {| file := lit "a.py"; code := lit "note" ++ NL ++ lit "x" |} ].
Proof.
  apply (validate_response_plain
           (lit "~~~" ++ NL ++ lit "File:  ` a.py `:" ++ NL ++ lit "note" ++ NL
              ++ lit "```py" ++ NL ++ lit "x" ++ NL ++ lit "```" ++ NL ++ lit "~~~")).
  vm_compute. reflexivity.
Defined.

(** X7: a parse result is a fixed point of serializing and parsing again:
    whatever list [validate_response] returns, [response_to_markdown_prompt]
    of it parses back to the same list. *)
Theorem reparse (response : str) (l : list CodeFile) :
  validate_response response = Ok (VList l) ->
  validate_response (response_to_markdown_prompt l) = Ok (VList l).
Proof.
  unfold validate_response at 1.
  destruct (fenced response) as [body|]; cbn [mbind res_bind]; [|done].
  destruct (scan_lines body) as [l'|] eqn:Hs; cbn [mbind res_bind]; [|done].
  intros [= <-]. apply scan_lines_plain in Hs. unfold validate_response.
  rewrite fenced_serialized. cbn [mbind res_bind].
  by rewrite (scan_lines_serialized l' Hs).
Qed.

Lemma reparse_witness :
  validate_response
    (response_to_markdown_prompt
       [ {| file := lit "a.py"; code := lit "note" ++ NL ++ lit "x" |} ])
  = Ok (VList [ {| file := lit "a.py"; code := lit "note" ++ NL ++ lit "x" |} ]).
Proof.
  apply (reparse
           (lit "~~~" ++ NL ++ lit "File:  ` a.py `:" ++ NL ++ lit "note" ++ NL
              ++ lit "```py" ++ NL ++ lit "x" ++ NL ++ lit "```" ++ NL ++ lit "~~~")).
  vm_compute. reflexivity.
Defined.

(** * Further properties of persistence *)

Section Persistence.

Implicit Types (project_dir project_name name p : str) (fs : filesystem)
  (f : CodeFile) (l response : list CodeFile).

Lemma save_nil project_dir project_name fs :
  save_code_to_project project_dir [] project_name fs = (None, fs).
Proof. reflexivity. Qed.

Lemma save_snoc project_dir project_name l f fs :
  save_code_to_project project_dir (l ++ [f]) project_name fs
  = (Some (dirname (project_file project_dir project_name (file f))),
     write_file (project_file project_dir project_name (file f)) (code f)
       (makedirs (dirname (project_file project_dir project_name (file f)))
          (snd (save_code_to_project project_dir l project_name fs)))).
Proof.
  unfold save_code_to_project. rewrite foldl_snoc.
  by destruct (foldl _ _ l).
Qed.

Lemma project_file_path project_dir project_name name :
  project_file project_dir project_name name
  = get_project_path project_dir project_name ++ 47%N :: name.
Proof.
  unfold project_file, get_project_path. by rewrite <- !(assoc_L (++)).
Qed.

Lemma rfind_nat_Some_inv (sep b : str) : rfind_nat (sep ++ b) sep = None -> False.
Proof.
  destruct (sep ++ b) as [|x t] eqn:Hs.
  - apply app_eq_nil in Hs as [-> ->]. done.
  - cbn [rfind_nat]. destruct (rfind_nat t sep); [done|].
    rewrite <- Hs, startswith_app. done.
Qed.

Lemma rfind_nat_ge (a sep b : str) :
  exists k, rfind_nat (a ++ sep ++ b) sep = Some k /\ length a <= k.
Proof.
  induction a as [|x a (k & Hk & Hle)].
  - cbn [app]. destruct (rfind_nat (sep ++ b) sep) as [k|] eqn:Hk.
    + exists k. split; [done|]. simpl. lia.
    + apply rfind_nat_Some_inv in Hk. done.
  - exists (S k). cbn [app rfind_nat]. rewrite Hk. split; [done|]. simpl. lia.
Qed.

(** The directory made for a file is the project path, followed by
    nothing or by a slash and more; by nothing when the name has no slash. *)
Lemma dirname_project project_dir project_name name :
  exists rest,
    dirname (project_file project_dir project_name name)
    = get_project_path project_dir project_name ++ rest
    /\ (rest = [] \/ exists r, rest = 47%N :: r)
    /\ (47%N ∉ name -> rest = []).
Proof.
  rewrite project_file_path. set (proj := get_project_path _ _).
  destruct (rfind_nat_ge proj [47%N] name) as (k & Hk & Hle).
  change ([47%N] ++ name) with (47%N :: name) in Hk.
  exists (take (k - length proj) (47%N :: name)).
  split; [|split].
  - unfold dirname, rfind, slice_to. change (lit "/") with [47%N]. rewrite Hk.
    rewrite (proj2 (Z.ltb_ge _ _)) by lia. rewrite Nat2Z.id. by apply take_app_ge.
  - destruct (k - length proj) as [|m]; [by left|right]. by eexists.
  - intros Hname. destruct (k - length proj) as [|m] eqn:Hm; [done|]. exfalso.
    pose proof (rfind_nat_Some _ _ _ Hk) as Hs.
    pose proof (rfind_nat_bound _ _ _ Hk) as Hb.
    assert ((proj ++ 47%N :: name) !! k = Some 47%N) as Hlook.
    { rewrite Hs. change ([47%N] ++ ?t) with (47%N :: t).
      apply list_lookup_middle. rewrite length_take. lia. }
    rewrite lookup_app_r in Hlook by lia. rewrite Hm in Hlook. cbn in Hlook.
    apply Hname. by eapply list_elem_of_lookup_2.
Qed.

(** X11: what [save_code_to_project] returns for a response that ends with
    [f] is the directory of [f]; it starts with the project path, and it is
    the project path itself when the name of [f] holds no slash. *)
Theorem save_code_to_project_returns project_dir project_name l f fs :
  exists rest,
    fst (save_code_to_project project_dir (l ++ [f]) project_name fs)
    = Some (get_project_path project_dir project_name ++ rest)
    /\ (47%N ∉ file f -> rest = []).
Proof.
  rewrite save_snoc. cbn [fst].
  destruct (dirname_project project_dir project_name (file f)) as (rest & -> & _ & Hflat).
  by exists rest.
Qed.

(** X12: [save_code_to_project] returns [None] exactly for the empty
    response. *)
Theorem save_code_to_project_none project_dir project_name response fs :
  fst (save_code_to_project project_dir response project_name fs) = None
  <-> response = [].
Proof.
  destruct response as [|g l] using rev_ind.
  - done.
  - rewrite save_snoc. cbn [fst]. split; [done|]. by intros []%app_eq_nil.
Qed.

End Persistence.

Lemma save_code_to_project_returns_witness :
  fst (save_code_to_project (lit "/root")
         [ {| file := lit "a/b.py"; code := lit "x" |};
           {| file := lit "c.py"; code := lit "y" |} ]
         (lit "My Project") {| dirs := ∅; contents := ∅ |})
  = Some (get_project_path (lit "/root") (lit "My Project")).
Proof.
  destruct (save_code_to_project_returns (lit "/root") (lit "My Project")
              [ {| file := lit "a/b.py"; code := lit "x" |} ]
              {| file := lit "c.py"; code := lit "y" |}
              {| dirs := ∅; contents := ∅ |}) as (rest & Hr & Hflat).
  rewrite Hflat in Hr.
  - by rewrite app_nil_r in Hr.
  - apply (proj1 (bool_decide_eq_true _)). vm_compute. reflexivity.
Defined.

Section Slug.

Lemma lower_char_idem (c : char) : lower_char (lower_char c) = lower_char c.
Proof.
  unfold lower_char.
  repeat match goal with
         | |- context [if ?b then _ else _] => destruct b eqn:?
         end;
    rewrite ?andb_true_iff, ?andb_false_iff, ?negb_true_iff, ?negb_false_iff,
      ?N.leb_le, ?N.leb_gt, ?N.eqb_eq, ?N.eqb_neq in *; lia.
Qed.

Lemma lower_char_below_256 (c : char) : (c < 256 -> lower_char c < 256)%N.
Proof.
  intros Hc. unfold lower_char.
  repeat match goal with
         | |- context [if ?b then _ else _] => destruct b eqn:?
         end;
    rewrite ?andb_true_iff, ?andb_false_iff, ?negb_true_iff, ?negb_false_iff,
      ?N.leb_le, ?N.leb_gt, ?N.eqb_eq, ?N.eqb_neq in *; lia.
Qed.

Lemma slug_char_idem (c : char) :
  hyphenate (lower_char (hyphenate (lower_char c))) = hyphenate (lower_char c).
Proof.
  unfold hyphenate at 2 3. destruct (N.eqb_spec (lower_char c) 32) as [He|Hne].
  - reflexivity.
  - rewrite lower_char_idem. unfold hyphenate.
    by apply N.eqb_neq in Hne as ->.
Qed.

(** X13: the slug of a project name is its own slug, so a project named by
    the slug of another gets the same path; for names within Basic Latin
    and Latin-1. *)
Theorem get_project_path_idem (project_dir project_name : str) :
  latin1 project_name ->
  get_project_path project_dir (replace (lower project_name) (lit " ") (lit "-"))
  = get_project_path project_dir project_name.
Proof.
  intros Hl. unfold get_project_path. rewrite !slug_hyphenate. do 2 f_equal.
  rewrite (lower_latin1 _ Hl), lower_latin1.
  - rewrite <- !list_fmap_compose.
    apply list_fmap_ext. intros i c _. apply slug_char_idem.
  - unfold latin1 in *. rewrite !Forall_fmap.
    eapply Forall_impl; [exact Hl|]. intros c Hc. cbn.
    pose proof (lower_char_below_256 c Hc). unfold hyphenate.
    destruct (lower_char c =? 32)%N; lia.
Qed.

Lemma get_project_path_idem_witness :
  get_project_path (lit "/root") (lit "my-project")
  = get_project_path (lit "/root") (lit "My Project").
Proof.
  apply (get_project_path_idem (lit "/root") (lit "My Project")).
  unfold latin1. apply Forall_forall. intros c Hc.
  revert c Hc. apply Forall_forall. vm_compute. repeat constructor.
Defined.

End Slug.

(** * Further properties of [execute] *)

Section Orchestration.

Context `{Collaborators}.

Implicit Types (w : world) (σ : Store) (project_name : str)
  (code_set l : list CodeFile) (f : CodeFile) (s : StateSnapshot BrowserSession).

Lemma emulate_code_writing_none f l project_name w :
  get_latest (states w) project_name = None ->
  emulate_code_writing (f :: l) project_name w = (Raise TypeError, w).
Proof.
  intros Hnone. unfold emulate_code_writing. cbn [for_each].
  unfold mbind, M_bind, get_latest_state. cbn beta iota. by rewrite Hnone.
Qed.

(** Emulation calls no client, and what it raises is [TypeError]. *)
Lemma emulate_code_writing_outcome code_set project_name w :
  llm_calls (snd (emulate_code_writing code_set project_name w)) = llm_calls w
  /\ (fst (emulate_code_writing code_set project_name w) = Ok tt
      \/ fst (emulate_code_writing code_set project_name w) = Raise TypeError).
Proof.
  revert w. induction code_set as [|f l IH]; intros w.
  - rewrite emulate_code_writing_nil. by split; [|left].
  - destruct (get_latest (states w) project_name) as [s|] eqn:Hs.
    + rewrite (emulate_code_writing_cons _ _ _ _ s) by done.
      destruct (IH {| llm_calls := llm_calls w;
                      states := add_to_current (states w) project_name
                                  (written (browser_session s) (file f) (code f)) |})
        as [Hc Hr].
      split; [by rewrite Hc|done].
    + rewrite emulate_code_writing_none by done. by split; [|right].
Qed.

Lemma validate_response_index (response : str) (e : exn) :
  validate_response response = Raise e -> e = IndexError.
Proof.
  unfold validate_response.
  destruct (fenced response) as [body|e'] eqn:Hf; cbn [mbind res_bind].
  - destruct (scan_lines body) as [l|e'] eqn:Hs; cbn [mbind res_bind]; [done|].
    intros [= <-]. by eapply scan_lines_raise.
  - intros [= <-]. by apply fenced_raise in Hf as [-> _].
Qed.

Lemma validate_response_list (response : str) (v : value) :
  validate_response response = Ok v -> exists l, v = VList l.
Proof.
  unfold validate_response.
  destruct (fenced response) as [body|]; cbn [mbind res_bind]; [|done].
  destruct (scan_lines body) as [l|]; cbn [mbind res_bind]; [|done].
  intros [= <-]. by exists l.
Qed.

(** [execute] past the call of the client and the parse. *)
Lemma execute_parsed (depth : nat) (plan context : str) (results : SearchResults)
    project_name w f l :
  validate_response (inference (llm_calls w) (template plan context results))
  = Ok (VList (f :: l)) ->
  execute (S depth) plan context results (Some project_name) w
  = match emulate_code_writing (f :: l) project_name
            {| llm_calls := S (llm_calls w); states := states w |} with
    | (Ok _, w') => (Ok (VList (f :: l)), w')
    | (Raise e, w') => (Raise e, w')
    end.
Proof.
  intros Hv. cbn [execute].
  unfold mbind, M_bind, render, mret, M_ret, llm_inference, lift. cbn beta iota.
  cbn [llm_calls states]. rewrite Hv. cbn [truthy negb].
  by destruct (emulate_code_writing _ _ _) as [[[]|e] w'].
Qed.

(** X14: when the first answer of the client parses to a non-empty list and
    the store, which gives back as latest the snapshot appended last, holds
    a snapshot for the project, [execute] returns that list after exactly
    one call of the client and one append per file. *)
Theorem execute_returns (depth : nat) (plan context : str) (results : SearchResults)
    project_name w f l s0 :
  validate_response (inference (llm_calls w) (template plan context results))
  = Ok (VList (f :: l)) ->
  (forall σ s, get_latest (add_to_current σ project_name s) project_name = Some s) ->
  get_latest (states w) project_name = Some s0 ->
  execute (S depth) plan context results (Some project_name) w
  = (Ok (VList (f :: l)),
     {| llm_calls := S (llm_calls w);
        states :=
          foldl (fun σ s => add_to_current σ project_name s) (states w)
            ((fun g => written (browser_session s0) (file g) (code g)) <$> f :: l) |}).
Proof.
  intros Hv Hlaw Hlast. rewrite (execute_parsed _ _ _ _ _ _ f l Hv).
  by rewrite (emulate_code_writing_run (f :: l) project_name _ s0 Hlaw).
Qed.

(** X15: whenever [execute] returns a value, it has called the client
    exactly once and the value is a list that is not empty: no result ever
    comes out of the retry. *)
Theorem execute_outcome (depth : nat) (plan context : str) (results : SearchResults)
    (project_name : option str) w (v : value) w' :
  execute depth plan context results project_name w = (Ok v, w') ->
  llm_calls w' = S (llm_calls w) /\ exists f l, v = VList (f :: l).
Proof.
  destruct project_name as [project_name|]; [|by destruct depth].
  destruct depth as [|depth]; [done|].
  destruct (validate_response (inference (llm_calls w) (template plan context results)))
    as [v0|e] eqn:Hv.
  - destruct (validate_response_list _ _ Hv) as [[|f l] ->].
    + by rewrite (execute_falsy _ _ _ _ _ _ (VList []) Hv eq_refl).
    + rewrite (execute_parsed _ _ _ _ _ _ f l Hv).
      destruct (emulate_code_writing_outcome (f :: l) project_name
                  {| llm_calls := S (llm_calls w); states := states w |}) as [Hc _].
      destruct (emulate_code_writing _ _ _) as [[[]|e] w1]; [|done].
      intros [= <- <-]. split; [done|]. by eexists _, _.
  - by rewrite (execute_raise _ _ _ _ _ _ e Hv).
Qed.

(** X16: when the store has no snapshot to give for the project, [execute]
    on an answer that parses to a non-empty list raises [TypeError] after
    its call of the client, and appends nothing. *)
Theorem execute_without_snapshot (depth : nat) (plan context : str)
    (results : SearchResults) project_name w f l :
  validate_response (inference (llm_calls w) (template plan context results))
  = Ok (VList (f :: l)) ->
  get_latest (states w) project_name = None ->
  execute (S depth) plan context results (Some project_name) w
  = (Raise TypeError, {| llm_calls := S (llm_calls w); states := states w |}).
Proof.
  intros Hv Hnone. rewrite (execute_parsed _ _ _ _ _ _ f l Hv).
  by rewrite emulate_code_writing_none.
Qed.

End Orchestration.

Lemma execute_returns_witness :
  fst (execute (H := scripted [demo_answer]) 1 (lit "plan") (lit "context") tt
         (Some (lit "demo")) {| llm_calls := 0; states := {[ lit "demo" := [demo_snapshot] ]} |})
  = Ok (VList [ {| file := lit "a.py"; code := lit "x" |} ])
  /\ llm_calls (snd (execute (H := scripted [demo_answer]) 1 (lit "plan") (lit "context") tt
                       (Some (lit "demo")) {| llm_calls := 0; states := {[ lit "demo" := [demo_snapshot] ]} |}))
     = 1.
Proof.
  rewrite (execute_returns (H := scripted [demo_answer])
             0 (lit "plan") (lit "context") tt (lit "demo") {| llm_calls := 0; states := {[ lit "demo" := [demo_snapshot] ]} |}
             {| file := lit "a.py"; code := lit "x" |} [] demo_snapshot).
  - by split.
  - vm_compute. reflexivity.
  - intros σ s. cbn [get_latest add_to_current scripted].
    rewrite lookup_insert_eq. apply last_snoc.
  - reflexivity.
Defined.

Lemma execute_without_snapshot_witness :
  execute (H := scripted [demo_answer]) 1 (lit "plan") (lit "context") tt
    (Some (lit "demo")) {| llm_calls := 0; states := ∅ |}
  = (Raise TypeError, {| llm_calls := 1; states := ∅ |}).
Proof.
  apply (execute_without_snapshot (H := scripted [demo_answer])
           0 (lit "plan") (lit "context") tt (lit "demo")
           {| llm_calls := 0; states := ∅ |}
           {| file := lit "a.py"; code := lit "x" |} []).
  - vm_compute. reflexivity.
  - reflexivity.
Defined.

Lemma execute_outcome_witness :
  llm_calls (snd (execute (H := scripted [demo_answer]) 1 (lit "plan") (lit "context") tt
                    (Some (lit "demo"))
                    {| llm_calls := 0; states := {[ lit "demo" := [demo_snapshot] ]} |}))
  = 1
  /\ exists f l, VList [ {| file := lit "a.py"; code := lit "x" |} ] = VList (f :: l).
Proof.
  apply (execute_outcome (H := scripted [demo_answer]) 1 (lit "plan") (lit "context") tt
           (Some (lit "demo"))
           {| llm_calls := 0; states := {[ lit "demo" := [demo_snapshot] ]} |}).
  vm_compute. reflexivity.
Defined.

(** X17: on plain files the serialization loses nothing: two lists of
    plain files with the same serialization are the same list. *)
Theorem response_to_markdown_prompt_inj (fs1 fs2 : list CodeFile) :
  Forall (fun f => plain f = true) fs1 ->
  Forall (fun f => plain f = true) fs2 ->
  response_to_markdown_prompt fs1 = response_to_markdown_prompt fs2 ->
  fs1 = fs2.
Proof.
  intros H1 H2 Heq. apply roundtrip_general in H1, H2.
  rewrite Heq in H1. congruence.
Qed.

Lemma response_to_markdown_prompt_inj_witness :
  [ {| file := lit "a.py"; code := lit "x" ++ NL ++ lit "y" |} ]
  = [ {| file := lit "a.py"; code := lit "x" ++ NL ++ lit "y" |} ].
Proof.
  apply response_to_markdown_prompt_inj.
  - repeat constructor.
  - repeat constructor.
  - reflexivity.
Defined.
